(** * DrawTime: the diagram model, the description parser and the renderer

    A shallow embedding of [model.py], [parse.py] and [render.py].

    Conventions of the embedding.
    - Python exceptions are the [Raise] outcomes of the [result] monad.
    - Python numbers are rationals ([Q]): an [int] is itself, a finite
      [float] is the rational it denotes.  Comparisons are then the Python
      ones.  The arithmetic of the clock expansion, where the code adds
      floats in a loop, is a parameter ([Arithmetic]), with an exact instance
      and an IEEE double instance; the pixel arithmetic is exact.  The
      non-finite floats are outside the model.
    - A Python [str] is a [string] whose characters are the code points
      below 256.
    - A [dict] is the list of its items in insertion order. *)

From Stdlib Require Import List String Ascii Bool Arith ZArith QArith Qround Qminmax Lia Lqa.
From Stdlib Require DecimalString HexadecimalString.
From Stdlib Require PrimFloat FloatOps SpecFloat.
Import ListNotations.

Open Scope string_scope.
Open Scope list_scope.
Open Scope Z_scope.

(** ** Exceptions and the result monad *)

(** The keys of [parse.ERRORS]. *)
Inductive error_type :=
| time_args | style_args | unknown_block | orphan_colon | orphan_line
| signal_args | malformed_line | time_prop | style_prop | signal_prop
| bad_float | bad_int | bad_color | clock_change | line_value | bus_value
| line_unknown | change_dupe | missing_prop | empty_block.

Definition numbered_line : Type := nat * string.

Inductive exn :=
| TimingSyntaxError (kind : error_type) (line : numbered_line)
| ValueError
| TypeError
| KeyError
| AssertionError
| ZeroDivisionError
| OtherError (name : string).

Inductive result (A : Type) :=
| Ok (a : A)
| Raise (e : exn).
Arguments Ok {A} a.
Arguments Raise {A} e.

Definition bind {A B} (m : result A) (k : A -> result B) : result B :=
  match m with
  | Ok a => k a
  | Raise e => Raise e
  end.

Declare Scope py_scope.
Delimit Scope py_scope with py.
Notation "x <- m ;; k" := (bind m (fun x => k))
  (at level 61, m at next level, right associativity) : py_scope.
Notation "' p <- m ;; k" := (bind m (fun x => let p := x in k))
  (at level 61, p pattern, m at next level, right associativity) : py_scope.
Open Scope py_scope.

Definition is_syntax_error (e : exn) : bool :=
  match e with TimingSyntaxError _ _ => true | _ => false end.

(** ** Python string methods *)

Module PyStr.

Definition LF : ascii := ascii_of_nat 10.
Definition CR : ascii := ascii_of_nat 13.

(** [str.isspace] on one character. *)
Definition isspace (c : ascii) : bool :=
  let n := nat_of_ascii c in
  (((9 <=? n) && (n <=? 13)) || ((28 <=? n) && (n <=? 32))
   || (n =? 133) || (n =? 160))%nat.

(** The line boundaries of [str.splitlines]. *)
Definition islinebreak (c : ascii) : bool :=
  let n := nat_of_ascii c in
  (((10 <=? n) && (n <=? 13)) || ((28 <=? n) && (n <=? 30)) || (n =? 133))%nat.

Fixpoint splitlines (s : string) : list string :=
  match s with
  | EmptyString => []
  | String c s' =>
      if islinebreak c then
        match s' with
        | String c' s'' =>
            if (Ascii.eqb c CR && Ascii.eqb c' LF)%bool
            then EmptyString :: splitlines s''
            else EmptyString :: splitlines s'
        | EmptyString => [EmptyString]
        end
      else
        match splitlines s' with
        | [] => [String c EmptyString]
        | l :: ls => String c l :: ls
        end
  end.

Fixpoint lstrip (s : string) : string :=
  match s with
  | String c s' => if isspace c then lstrip s' else s
  | EmptyString => EmptyString
  end.

Fixpoint rstrip (s : string) : string :=
  match s with
  | String c s' =>
      match rstrip s' with
      | EmptyString => if isspace c then EmptyString else String c EmptyString
      | r => String c r
      end
  | EmptyString => EmptyString
  end.

Definition strip (s : string) : string := rstrip (lstrip s).

Definition startswith (s p : string) : bool := String.prefix p s.

Fixpoint last_char (s : string) : option ascii :=
  match s with
  | EmptyString => None
  | String c EmptyString => Some c
  | String _ s' => last_char s'
  end.

(** [s.endswith(c)] for a one-character suffix. *)
Definition endswith_char (s : string) (c : ascii) : bool :=
  match last_char s with
  | Some c' => Ascii.eqb c c'
  | None => false
  end.

(** [s[:-1]]. *)
Fixpoint drop_last (s : string) : string :=
  match s with
  | EmptyString => EmptyString
  | String _ EmptyString => EmptyString
  | String c s' => String c (drop_last s')
  end.

Fixpoint drop (n : nat) (s : string) : string :=
  match n, s with
  | O, _ => s
  | S n', String _ s' => drop n' s'
  | S _, EmptyString => EmptyString
  end.

(** The first occurrence of [d] in [s]: the text before it and after it. *)
Fixpoint find (d s : string) : option (string * string) :=
  if String.prefix d s then Some (EmptyString, drop (String.length d) s)
  else match s with
       | EmptyString => None
       | String c s' =>
           match find d s' with
           | Some (b, a) => Some (String c b, a)
           | None => None
           end
       end.

(** [d in s]. *)
Definition contains (d s : string) : bool :=
  match find d s with Some _ => true | None => false end.

(** [s.partition(d)]. *)
Definition partition (d s : string) : string * string * string :=
  match find d s with
  | Some (b, a) => (b, d, a)
  | None => (s, EmptyString, EmptyString)
  end.

(** The longest prefix without white space, and what follows it. *)
Fixpoint span_word (s : string) : string * string :=
  match s with
  | EmptyString => (EmptyString, EmptyString)
  | String c s' =>
      if isspace c then (EmptyString, s)
      else let '(w, r) := span_word s' in (String c w, r)
  end.

(** [s.split(None, 1)]. *)
Definition split_whitespace_1 (s : string) : list string :=
  match lstrip s with
  | EmptyString => []
  | t =>
      let '(w, r) := span_word t in
      match lstrip r with
      | EmptyString => [w]
      | r' => [w; r']
      end
  end.

(** The text whose lines are [ls], each ended by a line feed. *)
Fixpoint unlines (ls : list string) : string :=
  match ls with
  | [] => EmptyString
  | l :: ls' => (l ++ String LF (unlines ls'))%string
  end.

End PyStr.

(** ** model.py *)

Module Model.

(** The Python values that reach the model: numbers, strings, [None]
    (a floating signal) and the [UNKNOWN] sentinel object. *)
Inductive value :=
| VNum (q : Q)
| VStr (s : string)
| VNone
| UNKNOWN.

(** Python [==] between two such values. *)
Definition value_eqb (a b : value) : bool :=
  match a, b with
  | VNum x, VNum y => Qeq_bool x y
  | VStr x, VStr y => String.eqb x y
  | VNone, VNone => true
  | UNKNOWN, UNKNOWN => true
  | _, _ => false
  end.

(** [isinstance(v, numbers.Number)]. *)
Definition is_number (v : value) : bool :=
  match v with VNum _ => true | _ => false end.

(** [isinstance(v, str)]. *)
Definition is_str (v : value) : bool :=
  match v with VStr _ => true | _ => false end.

(** [v in {...}] for a set literal. *)
Definition in_set (v : value) (s : list value) : bool :=
  existsb (value_eqb v) s.

(** *** Dictionaries keyed by time *)

Section Dict.
Context {K V : Type} (keq : K -> K -> bool).

Definition dict : Type := list (K * V).

(** [k in d]. *)
Definition dict_in (k : K) (d : dict) : bool :=
  existsb (fun kv => keq (fst kv) k) d.

(** [d[k] = v]: the value of an existing key is replaced in place, a new
    key goes to the end. *)
Fixpoint dict_set (k : K) (v : V) (d : dict) : dict :=
  match d with
  | [] => [(k, v)]
  | (k', v') :: d' =>
      if keq k' k then (k', v) :: d' else (k', v') :: dict_set k v d'
  end.

(** [OrderedDict.popitem()]: the last item leaves; [KeyError] when there
    is none. *)
Definition popitem (d : dict) : result (K * V * dict) :=
  match rev d with
  | [] => Raise KeyError
  | kv :: r => Ok (kv, rev r)
  end.
End Dict.
Arguments dict : clear implicits.

Definition Qltb (a b : Q) : bool := negb (Qle_bool b a).

(** *** Signals *)

Inductive Signal :=
| Line (name : string) (start : value) (changes : dict Q value)
| Bus (name : string) (start : value) (changes : dict Q value)
| Clock (name : string) (offset length duty : Q).

Definition signal_name (s : Signal) : string :=
  match s with
  | Line n _ _ | Bus n _ _ | Clock n _ _ _ => n
  end.

(** [sorted(changes.items())]: the keys of a dict are pairwise different, so
    the order is the order of the keys.  Comparing a number with a
    non-number raises [TypeError]; otherwise the keys are inserted in
    order. *)
Fixpoint insert_sorted (kv : Q * value) (l : list (Q * value)) :=
  match l with
  | [] => [kv]
  | kv' :: l' =>
      if Qltb (fst kv) (fst kv') then kv :: l
      else kv' :: insert_sorted kv l'
  end.

Definition sort_items (l : list (Q * value)) : list (Q * value) :=
  fold_right insert_sorted [] l.

(** The keys as numbers, when every one of them is a number. *)
Fixpoint numeric_items (l : list (value * value)) : option (list (Q * value)) :=
  match l with
  | [] => Some []
  | (VNum q, v) :: l' =>
      match numeric_items l' with
      | Some r => Some ((q, v) :: r)
      | None => None
      end
  | _ :: _ => None
  end.

(** The loop of [Line.__init__] over the sorted items; [acc] is
    [self.changes]. *)
Fixpoint Line_fill (items : list (Q * value)) (acc : dict Q value)
  : result (dict Q value) :=
  match items with
  | [] => Ok acc
  | (time, v) :: rest =>
      if negb (in_set v [VNum 0; VNum 1; VNone]) then Raise TypeError
      else if dict_in Qeq_bool time acc then Raise ValueError
      else Line_fill rest (dict_set Qeq_bool time v acc)
  end.

(** [Line.__init__]. *)
Definition Line_init (name : string) (start : value)
           (changes : list (value * value)) : result Signal :=
  if negb (in_set start [VNum 0; VNum 1; UNKNOWN; VNone]) then Raise TypeError
  else match numeric_items changes with
       | None => Raise TypeError
       | Some items =>
           c <- Line_fill (sort_items items) [] ;;
           Ok (Line name start c)
       end.

(** The loop of [Bus.__init__]: only the times are looked at. *)
Fixpoint Bus_fill (items : list (Q * value)) (acc : dict Q value)
  : result (dict Q value) :=
  match items with
  | [] => Ok acc
  | (time, v) :: rest =>
      if dict_in Qeq_bool time acc then Raise ValueError
      else Bus_fill rest (dict_set Qeq_bool time v acc)
  end.

(** [Bus.__init__]. *)
Definition Bus_init (name : string) (start : value)
           (changes : list (value * value)) : result Signal :=
  match numeric_items changes with
  | None => Raise TypeError
  | Some items =>
      c <- Bus_fill (sort_items items) [] ;;
      Ok (Bus name start c)
  end.

(** [Clock.__init__]. *)
Definition Clock_init (name : string) (offset length duty : Q) : result Signal :=
  if negb (Qltb 0 duty && Qltb duty 1) then Raise ValueError
  else Ok (Clock name offset length duty).

(** *** The diagram *)

Record TimingDiagram := mkDiagram {
  width : Z;
  height : Z;
  margin : Z;
  font_size : Z;
  font_family : string;
  background : Z;
  foreground : Z;
  start : Z;
  end_ : Z;
  step : option Z;
  delay : Z;
  signals : list Signal
}.

(** [TimingDiagram.__init__]; [/] is Python's true division. *)
Definition TimingDiagram_init (width height margin font_size : Z)
           (font_family : string) (background foreground start end_ : Z)
           (step : option Z) (delay : Z) (signals : option (list Signal))
  : result TimingDiagram :=
  if (Qltb (inject_Z width / 2) (inject_Z margin)
      || Qltb (inject_Z height / 2) (inject_Z margin))%bool
  then Raise ValueError
  else Ok (mkDiagram width height margin font_size font_family background
             foreground start end_ step delay
             (match signals with Some (x :: l) => x :: l | _ => [] end)).

(** [TimingDiagram()] with every default. *)
Definition default_diagram : result TimingDiagram :=
  TimingDiagram_init 800 600 20 12 "Times New Roman" 16777215 0 0 100 None 10 None.

End Model.

(** A [for] loop over a list with a body that may raise. *)
Fixpoint for_each {A S : Type} (body : A -> S -> result S) (l : list A) (s : S)
  : result S :=
  match l with
  | [] => Ok s
  | a :: l' => s' <- body a s ;; for_each body l' s'
  end.

(** ** parse.py *)

Module Parse.
Import Model.

(** The outcome of [ast.literal_eval]: a [str], another literal, a
    [SyntaxError], or another exception passing through. *)
Inductive lit_result :=
| LitStr (s : string)
| LitOther
| LitSyntaxError
| LitRaise (e : exn).

(** The built-in functions the parser calls on strings: [float] and [int]
    (no result: [ValueError]) and [ast.literal_eval]. *)
Class Builtins := {
  py_float : string -> option Q;
  py_int : string -> option Z;
  literal_eval : string -> lit_result
}.

Definition TIME_PROPERTIES : list string := ["start"; "end"; "step"; "delay"].

Inductive style_type := ty_number | ty_color | ty_string.

Definition STYLE_PROPERTIES : list (string * style_type) :=
  [("width", ty_number); ("height", ty_number); ("margin", ty_number);
   ("font_size", ty_number); ("font_family", ty_string);
   ("background", ty_color); ("foreground", ty_color)].

Definition SIGNAL_PROPERTIES : list (string * list string) :=
  [("clock", ["length"; "offset"; "duty"]); ("line", ["start"]); ("bus", ["start"])].

(** [d[k]] and [k in d] for the constant tables above. *)
Fixpoint lookup {V : Type} (k : string) (d : list (string * V)) : option V :=
  match d with
  | [] => None
  | (k', v) :: d' => if String.eqb k' k then Some v else lookup k d'
  end.

Definition mem (k : string) (l : list string) : bool := existsb (String.eqb k) l.

(** Equality of two sets of strings. *)
Definition set_eqb (a b : list string) : bool :=
  forallb (fun k => mem k b) a && forallb (fun k => mem k a) b.

(** [COLOR_REGEX.match(value)]: six hexadecimal digits, in either case. *)
Definition hex_digit (c : ascii) : option Z :=
  let n := Z.of_nat (nat_of_ascii c) in
  if (48 <=? n) && (n <=? 57) then Some (n - 48)
  else if (97 <=? n) && (n <=? 102) then Some (n - 87)
  else if (65 <=? n) && (n <=? 70) then Some (n - 55)
  else None.

Fixpoint hex_value (acc : Z) (s : string) : option Z :=
  match s with
  | EmptyString => Some acc
  | String c s' =>
      match hex_digit c with
      | Some d => hex_value (16 * acc + d) s'
      | None => None
      end
  end.

(** The value [int(value, 16)] of a string that matches [COLOR_REGEX]. *)
Definition parse_color (value : string) : option Z :=
  if Nat.eqb (String.length value) 6 then hex_value 0 value else None.

(** What goes into a diagram attribute. *)
Inductive attr_value :=
| AInt (z : Z)
| AStr (s : string).

(** [setattr(diagram, property, value)] for the properties of the style and
    time blocks. *)
Definition setattr (d : TimingDiagram) (property : string) (v : attr_value)
  : TimingDiagram :=
  let 'mkDiagram w h m fs ff bg fg st en sp dl sg := d in
  match v with
  | AInt z =>
      if String.eqb property "width" then mkDiagram z h m fs ff bg fg st en sp dl sg
      else if String.eqb property "height" then mkDiagram w z m fs ff bg fg st en sp dl sg
      else if String.eqb property "margin" then mkDiagram w h z fs ff bg fg st en sp dl sg
      else if String.eqb property "font_size" then mkDiagram w h m z ff bg fg st en sp dl sg
      else if String.eqb property "background" then mkDiagram w h m fs ff z fg st en sp dl sg
      else if String.eqb property "foreground" then mkDiagram w h m fs ff bg z st en sp dl sg
      else if String.eqb property "start" then mkDiagram w h m fs ff bg fg z en sp dl sg
      else if String.eqb property "end" then mkDiagram w h m fs ff bg fg st z sp dl sg
      else if String.eqb property "step" then mkDiagram w h m fs ff bg fg st en (Some z) dl sg
      else if String.eqb property "delay" then mkDiagram w h m fs ff bg fg st en sp z sg
      else d
  | AStr s =>
      if String.eqb property "font_family" then mkDiagram w h m fs s bg fg st en sp dl sg
      else d
  end.

(** [diagram.signals.append(s)]. *)
Definition append_signal (d : TimingDiagram) (s : Signal) : TimingDiagram :=
  let 'mkDiagram w h m fs ff bg fg st en sp dl sg := d in
  mkDiagram w h m fs ff bg fg st en sp dl (sg ++ [s]).

(** *** Grouping the lines into blocks *)

Definition signal_block : Type := string * string * list numbered_line.

(** The list that [current_block] is bound to: nothing yet, [time_lines],
    [style_lines], or the list of the last block of [signal_blocks]. *)
Inductive block_ref := NoBlock | TimeBlock | StyleBlock | SignalBlock.

Record blocks := mkBlocks {
  time_lines : list numbered_line;
  style_lines : list numbered_line;
  signal_blocks : list signal_block;
  current_block : block_ref
}.

(** [current_block == []]. *)
Definition current_is_empty (st : blocks) : bool :=
  match current_block st with
  | NoBlock => false
  | TimeBlock => match time_lines st with [] => true | _ => false end
  | StyleBlock => match style_lines st with [] => true | _ => false end
  | SignalBlock =>
      match rev (signal_blocks st) with
      | (_, _, []) :: _ => true
      | _ => false
      end
  end.

(** [current_block.append(numbered_line)]. *)
Definition append_current (st : blocks) (nl : numbered_line) : blocks :=
  match current_block st with
  | NoBlock => st
  | TimeBlock =>
      mkBlocks (time_lines st ++ [nl]) (style_lines st) (signal_blocks st) TimeBlock
  | StyleBlock =>
      mkBlocks (time_lines st) (style_lines st ++ [nl]) (signal_blocks st) StyleBlock
  | SignalBlock =>
      match rev (signal_blocks st) with
      | (ty, name, ls) :: r =>
          mkBlocks (time_lines st) (style_lines st)
                   (rev r ++ [(ty, name, ls ++ [nl])]) SignalBlock
      | [] => st
      end
  end.

(** The body of the loop of [_exractBlocks]. *)
Definition extract_step (nl : numbered_line) (st : blocks) : result blocks :=
  let line := snd nl in
  if PyStr.endswith_char line ":" then
    if current_is_empty st then Raise (TimingSyntaxError empty_block nl)
    else if Nat.eqb (String.length line) 1 then
      Raise (TimingSyntaxError orphan_colon nl)
    else
      match PyStr.split_whitespace_1 (PyStr.drop_last line) with
      | [] => Raise ValueError
      | block_type :: block_args =>
          if String.eqb block_type "time" then
            match block_args with
            | _ :: _ => Raise (TimingSyntaxError time_args nl)
            | [] => Ok (mkBlocks (time_lines st) (style_lines st)
                                 (signal_blocks st) TimeBlock)
            end
          else if String.eqb block_type "style" then
            match block_args with
            | _ :: _ => Raise (TimingSyntaxError style_args nl)
            | [] => Ok (mkBlocks (time_lines st) (style_lines st)
                                 (signal_blocks st) StyleBlock)
            end
          else if mem block_type ["clock"; "line"; "bus"] then
            match block_args with
            | [] => Raise (TimingSyntaxError signal_args nl)
            | name :: _ =>
                Ok (mkBlocks (time_lines st) (style_lines st)
                             (signal_blocks st ++ [(block_type, name, [])])
                             SignalBlock)
            end
          else Raise (TimingSyntaxError unknown_block nl)
      end
  else
    match current_block st with
    | NoBlock => Raise (TimingSyntaxError orphan_line nl)
    | _ => Ok (append_current st nl)
    end.

Definition _exractBlocks (numbered_lines : list numbered_line)
  : result (list numbered_line * list numbered_line * list signal_block) :=
  st <- for_each extract_step numbered_lines (mkBlocks [] [] [] NoBlock) ;;
  if current_is_empty st
  then Raise (TimingSyntaxError empty_block (last numbered_lines (O, EmptyString)))
  else Ok (time_lines st, style_lines st, signal_blocks st).

(** *** Lines and values *)

(** [_splitLine]: the left side, the operator and the right side. *)
Definition _splitLine (line_number : nat) (line : string) (allow_change : bool)
  : result (string * string * string) :=
  let delimiter := if allow_change && PyStr.contains "->" line then "->" else "=" in
  if negb (PyStr.contains delimiter line)
  then Raise (TimingSyntaxError malformed_line (line_number, line))
  else let '(l, op, r) := PyStr.partition delimiter line in
       Ok (PyStr.strip l, PyStr.strip op, PyStr.strip r).

Section Parser.
Context {B : Builtins}.

(** [_parseNumber]: [type] is [float] or [int], and [bad] the error
    ['bad_' + type.__name__]. *)
Definition _parseNumber {A : Type} (type : string -> option A) (bad : error_type)
           (raw : string) (line_number : nat) (line_text : string) : result A :=
  match type raw with
  | Some x => Ok x
  | None => Raise (TimingSyntaxError bad (line_number, line_text))
  end.

Definition _parseFloat (raw : string) (line_number : nat) (line_text : string)
  : result Q :=
  _parseNumber py_float bad_float raw line_number line_text.

Definition _parseInt (raw : string) (line_number : nat) (line_text : string)
  : result Z :=
  _parseNumber py_int bad_int raw line_number line_text.

Definition _parseSignalValue (v signal_type : string) (line_number : nat)
           (line_text : string) : result value :=
  if String.eqb signal_type "line" then
    if String.eqb v "1" then Ok (VNum 1)
    else if String.eqb v "0" then Ok (VNum 0)
    else if String.eqb v "Z" then Ok VNone
    else if String.eqb v "?" then Ok UNKNOWN
    else Raise (TimingSyntaxError line_value (line_number, line_text))
  else if String.eqb signal_type "bus" then
    if String.eqb v "Z" then Ok VNone
    else if String.eqb v "?" then Ok UNKNOWN
    else match literal_eval v with
         | LitStr s => Ok (VStr s)
         | LitOther => Raise (TimingSyntaxError bus_value (line_number, line_text))
         | LitSyntaxError =>
             Raise (TimingSyntaxError bus_value (line_number, line_text))
         | LitRaise e => Raise e
         end
  else Raise ValueError.

(** *** The style and time blocks *)

Definition style_step (nl : numbered_line) (diagram : TimingDiagram)
  : result TimingDiagram :=
  let '(number, line) := nl in
  '(property, _, v) <- _splitLine number line false ;;
  match lookup property STYLE_PROPERTIES with
  | None => Raise (TimingSyntaxError style_prop (number, line))
  | Some property_type =>
      match property_type with
      | ty_number =>
          z <- _parseInt v number line ;;
          Ok (setattr diagram property (AInt z))
      | ty_color =>
          match parse_color v with
          | None => Raise (TimingSyntaxError bad_color (number, line))
          | Some z => Ok (setattr diagram property (AInt z))
          end
      | ty_string => Ok (setattr diagram property (AStr v))
      end
  end.

Definition time_step (nl : numbered_line) (diagram : TimingDiagram)
  : result TimingDiagram :=
  let '(number, line) := nl in
  '(property, _, v) <- _splitLine number line false ;;
  if negb (mem property TIME_PROPERTIES)
  then Raise (TimingSyntaxError time_prop (number, line))
  else z <- _parseInt v number line ;;
       Ok (setattr diagram property (AInt z)).

(** *** The signal blocks *)

(** The two dictionaries a signal block fills: [properties] and [changes]. *)
Definition signal_state : Type := dict string value * dict Q value.

(** The body of the loop over the lines of one signal block. *)
Definition signal_step (signal_type : string) (nl : numbered_line)
           (st : signal_state) : result signal_state :=
  let '(properties, changes) := st in
  let '(number, line) := nl in
  '(target, operation, v) <- _splitLine number line true ;;
  if String.eqb operation "->" then
    if String.eqb signal_type "clock"
    then Raise (TimingSyntaxError clock_change (number, line))
    else
      time <- _parseFloat target number line ;;
      if dict_in Qeq_bool time changes
      then Raise (TimingSyntaxError change_dupe (number, line))
      else
        val <- _parseSignalValue v signal_type number line ;;
        if String.eqb signal_type "line" && value_eqb val UNKNOWN
        then Raise (TimingSyntaxError line_unknown (number, line))
        else Ok (properties, dict_set Qeq_bool time val changes)
  else
    match lookup signal_type SIGNAL_PROPERTIES with
    | None => Raise KeyError
    | Some allowed =>
        if negb (mem target allowed)
        then Raise (TimingSyntaxError signal_prop (number, line))
        else if String.eqb target "start" then
          val <- _parseSignalValue v signal_type number line ;;
          Ok (dict_set String.eqb target val properties, changes)
        else
          q <- _parseFloat v number line ;;
          Ok (dict_set String.eqb target (VNum q) properties, changes)
    end.

(** [SIGNAL_TYPES[signal_type](signal_name, **properties)], with [changes]
    among the properties of a line and of a bus. *)
Definition construct_signal (signal_type signal_name : string)
           (properties : dict string value) (changes : dict Q value)
  : result Signal :=
  let as_dict := map (fun kv => (VNum (fst kv), snd kv)) changes in
  if String.eqb signal_type "clock" then
    match lookup "offset" properties, lookup "length" properties,
          lookup "duty" properties with
    | Some (VNum o), Some (VNum l), Some (VNum d) => Clock_init signal_name o l d
    | _, _, _ => Raise TypeError
    end
  else if String.eqb signal_type "line" then
    match lookup "start" properties with
    | Some s => Line_init signal_name s as_dict
    | None => Raise TypeError
    end
  else if String.eqb signal_type "bus" then
    match lookup "start" properties with
    | Some s => Bus_init signal_name s as_dict
    | None => Raise TypeError
    end
  else Raise KeyError.

(** The body of the loop over the signal blocks. *)
Definition block_step (blk : signal_block) (diagram : TimingDiagram)
  : result TimingDiagram :=
  let '(signal_type, signal_name, signal_lines) := blk in
  '(properties, changes) <- for_each (signal_step signal_type) signal_lines ([], []) ;;
  match lookup signal_type SIGNAL_PROPERTIES with
  | None => Raise KeyError
  | Some required =>
      if negb (set_eqb (map fst properties) required) then
        match rev signal_lines with
        | l :: _ => Raise (TimingSyntaxError missing_prop l)
        | [] => Raise (OtherError "IndexError")
        end
      else
        s <- construct_signal signal_type signal_name properties changes ;;
        Ok (append_signal diagram s)
  end.

Definition _parseBlocks (time_lines style_lines : list numbered_line)
           (signal_blocks : list signal_block) : result TimingDiagram :=
  diagram <- default_diagram ;;
  diagram <- for_each style_step style_lines diagram ;;
  diagram <- for_each time_step time_lines diagram ;;
  for_each block_step signal_blocks diagram.

(** The numbered lines that are kept: [enumerate] counts from [number]. *)
Fixpoint number_lines (number : nat) (lines : list string) : list numbered_line :=
  match lines with
  | [] => []
  | line :: rest =>
      if negb (String.eqb line EmptyString) && negb (PyStr.startswith line "#")
      then (S number, line) :: number_lines (S number) rest
      else number_lines (S number) rest
  end.

Definition parseTimingDescription (code : string) : result TimingDiagram :=
  let lines := map PyStr.strip (PyStr.splitlines code) in
  let numbered_lines := number_lines O lines in
  '(time_lines, style_lines, signal_blocks) <- _exractBlocks numbered_lines ;;
  _parseBlocks time_lines style_lines signal_blocks.

End Parser.

End Parse.

(** ** A small instance of the built-in functions

    Enough of [float], [int] and [ast.literal_eval] to run the parser on
    plain texts: optionally signed decimal numerals (read exactly), and
    string literals in single quotes, without escapes. *)

Module Plain.
Import Parse.

Definition digit (c : ascii) : option Z :=
  let n := Z.of_nat (nat_of_ascii c) in
  if (48 <=? n) && (n <=? 57) then Some (n - 48) else None.

(** The value of a non-empty string of digits, and the number of digits. *)
Fixpoint digits (acc : Z) (count : nat) (s : string) : option (Z * nat) :=
  match s with
  | EmptyString => match count with O => None | _ => Some (acc, count) end
  | String c s' =>
      match digit c with
      | Some d => digits (10 * acc + d) (S count) s'
      | None => None
      end
  end.

(** An optional sign in front of [s]. *)
Definition signed (s : string) : bool * string :=
  match s with
  | String "-" s' => (true, s')
  | String "+" s' => (false, s')
  | _ => (false, s)
  end.

Definition plain_int (raw : string) : option Z :=
  let '(neg, s) := signed (PyStr.strip raw) in
  match digits 0 O s with
  | Some (z, _) => Some (if neg then - z else z)
  | None => None
  end.

Definition plain_float (raw : string) : option Q :=
  let '(neg, s) := signed (PyStr.strip raw) in
  let sgn (q : Q) := if neg then Qopp q else q in
  match PyStr.find "." s with
  | None =>
      match digits 0 O s with
      | Some (z, _) => Some (sgn (inject_Z z))
      | None => None
      end
  | Some (i, f) =>
      match digits 0 O i, digits 0 O f with
      | Some (a, _), Some (b, n) =>
          Some (sgn (Qred (inject_Z a + inject_Z b / inject_Z (10 ^ Z.of_nat n))))
      | _, _ => None
      end
  end.

Definition quote : ascii := ascii_of_nat 39.
Definition backslash : ascii := ascii_of_nat 92.

Fixpoint has_char (c : ascii) (s : string) : bool :=
  match s with
  | EmptyString => false
  | String c' s' => Ascii.eqb c c' || has_char c s'
  end.

Definition plain_literal_eval (raw : string) : lit_result :=
  match PyStr.strip raw with
  | String q s =>
      if Ascii.eqb q quote then
        if PyStr.endswith_char s quote then
          let body := PyStr.drop_last s in
          if has_char quote body || has_char backslash body
          then LitSyntaxError
          else LitStr body
        else LitSyntaxError
      else match plain_int raw with
           | Some _ => LitOther
           | None => LitSyntaxError
           end
  | EmptyString => LitSyntaxError
  end.

#[export] Instance plain_builtins : Builtins := {
  py_float := plain_float;
  py_int := plain_int;
  literal_eval := plain_literal_eval
}.

End Plain.

(** ** render.py *)

Module Render.
Import Model.

(** *** The Qt values the renderer builds *)

Record QFont := mkFont { family : string; point_size : Z }.

(** [QRectF(x, y, w, h)]. *)
Record QRectF := mkRect { rx : Q; ry : Q; rw : Q; rh : Q }.

Definition left (r : QRectF) : Q := rx r.
Definition top (r : QRectF) : Q := ry r.
Definition right (r : QRectF) : Q := rx r + rw r.
Definition bottom (r : QRectF) : Q := ry r + rh r.
Definition center_y (r : QRectF) : Q := ry r + rh r / 2.
Definition translated (r : QRectF) (dx dy : Q) : QRectF :=
  mkRect (rx r + dx) (ry r + dy) (rw r) (rh r).
Definition setHeight (r : QRectF) (h : Q) : QRectF := mkRect (rx r) (ry r) (rw r) h.
Definition setWidth (r : QRectF) (w : Q) : QRectF := mkRect (rx r) (ry r) w (rh r).
Definition moveTop (r : QRectF) (y : Q) : QRectF := mkRect (rx r) y (rw r) (rh r).
Definition moveLeft (r : QRectF) (x : Q) : QRectF := mkRect x (ry r) (rw r) (rh r).

(** A colour by the name given to [QColor], or [Qt.gray]. *)
Inductive QColor :=
| NamedColor (name : string)
| Gray.

(** A pen by the way it was made: the pen a painter starts with, [Qt.NoPen],
    [QPen(color)], or the pen of [_drawLine] with its width and style. *)
Inductive QPen :=
| DefaultPen
| NoPen
| ColorPen (c : QColor)
| LinePen (c : QColor) (width : Z) (dashed : bool).

Inductive QBrush :=
| DefaultBrush
| SolidBrush (c : QColor).

(** The settings of a painter. *)
Record PainterState := mkPainter {
  pen : QPen;
  brush : QBrush;
  font : option QFont;
  antialiasing : bool;
  text_antialiasing : bool
}.

(** The settings after [QPainter.begin]: every one back to its default. *)
Definition fresh_painter : PainterState :=
  mkPainter DefaultPen DefaultBrush None false false.

(** The painter calls that put something on the image. *)
Inductive primitive :=
| FillRect (x y w h : Z) (c : QColor)
| DrawRect (r : QRectF)
| DrawLine (x1 y1 x2 y2 : Q)
| DrawConvexPolygon (points : list (Q * Q))
| DrawText (r : QRectF) (text : string).

(** An image: its size and, in order, what was painted on it and with which
    settings. *)
Record QImage := mkImage {
  image_width : Z;
  image_height : Z;
  painted : list (PainterState * primitive)
}.

(** Font metrics come from the host: the width of a text and the height of a
    line in a font, and the font of a painter that was given none. *)
Class FontMetrics := {
  text_width : QFont -> string -> Z;
  text_height : QFont -> Z;
  default_font : QFont
}.

(** *** Numbers *)

Definition TEXT_HEIGHT : Q := 12 # 10.

(** [max(a, b)] and [min(a, b)] of two numbers. *)
Definition pymax (a b : Q) : Q := if Qltb a b then b else a.
Definition pymin (a b : Q) : Q := if Qltb b a then b else a.

(** [a / b]. *)
Definition pydiv (a b : Q) : result Q :=
  if Qeq_bool b 0 then Raise ZeroDivisionError else Ok (a / b)%Q.

(** The arithmetic of the numbers of a clock: [a + b], [a - b], [a * b] and,
    for a divisor that is not zero, [a % b].  On [int] and [Fraction] values
    the operations are exact; on [float] values each gives the double that
    Python computes. *)
Class Arithmetic := {
  fadd : Q -> Q -> Q;
  fsub : Q -> Q -> Q;
  fmul : Q -> Q -> Q;
  fmod : Q -> Q -> Q
}.

(** [a % b]. *)
Definition pymod {FO : Arithmetic} (a b : Q) : result Q :=
  if Qeq_bool b 0 then Raise ZeroDivisionError else Ok (fmod a b).

(** [max(l)] of a list of integers; [ValueError] on the empty list. *)
Definition max_list (l : list Z) : result Z :=
  match l with
  | [] => Raise ValueError
  | x :: l' => Ok (fold_left (fun m y => if m <? y then y else m) l' x)
  end.

(** [range(0, stop, step)] for a step that is not zero. *)
Definition range_length (stop step : Z) : Z :=
  if 0 <? step then Z.max 0 ((stop + step - 1) / step)
  else Z.max 0 ((- stop - step - 1) / (- step)).

Definition range0 (stop step : Z) : list Z :=
  map (fun i => Z.of_nat i * step) (seq 0 (Z.to_nat (range_length stop step))).

(** [str(n)] of a count. *)
Definition str_of_nat (n : nat) : string :=
  DecimalString.NilZero.string_of_uint (Nat.to_uint n).

(** [hex(n)]. *)
Definition hex (n : Z) : string :=
  String.append (if n <? 0 then "-0x" else "0x")
    (HexadecimalString.NilZero.string_of_uint (N.to_hex_uint (Z.abs_N n))).

Fixpoint zeros (n : nat) : string :=
  match n with
  | O => EmptyString
  | S n' => String "0" (zeros n')
  end.

(** [s.zfill(n)]: zeros go after a leading sign. *)
Definition zfill (n : nat) (s : string) : string :=
  let pad := zeros (n - String.length s) in
  match s with
  | String "+" s' => String "+" (String.append pad s')
  | String "-" s' => String "-" (String.append pad s')
  | _ => String.append pad s
  end.

(** [QColor('#' + hex(n)[2:].zfill(6))]. *)
Definition color_of (n : Z) : QColor :=
  NamedColor (String "#" (zfill 6 (PyStr.drop 2 (hex n)))).

(** [re.sub('(^|/)!', r'\1', text)]: an exclamation mark is dropped at the
    start of the text and after a slash. *)
Fixpoint strip_after_slash (s : string) : string :=
  match s with
  | String "/" (String "!" s') => String "/" (strip_after_slash s')
  | String c s' => String c (strip_after_slash s')
  | EmptyString => EmptyString
  end.

Definition strip_markup (text : string) : string :=
  match text with
  | String "!" s' => strip_after_slash s'
  | _ => strip_after_slash text
  end.

(** [l.insert(i, a)]. *)
Fixpoint list_insert {A : Type} (i : nat) (a : A) (l : list A) : list A :=
  match i, l with
  | O, _ => a :: l
  | S i', x :: l' => x :: list_insert i' a l'
  | S _, [] => [a]
  end.

(** *** Times and pixels *)

(** [_timeDeltaToPixels], given the diagram and the inner frame. *)
Definition timeDeltaToPixels (diagram : TimingDiagram) (inner_frame : QRectF)
           (time : Q) : result Q :=
  let total_time := inject_Z (end_ diagram - start diagram) in
  pixels_per_time_unit <- pydiv (rw inner_frame) total_time ;;
  Ok (time * pixels_per_time_unit)%Q.

(** [_timeToPixels], given the diagram and the inner frame. *)
Definition timeToPixels (diagram : TimingDiagram) (inner_frame : QRectF)
           (time : Q) : result Q :=
  delta <- timeDeltaToPixels diagram inner_frame (time - inject_Z (start diagram))%Q ;;
  let offset := pymax 0 delta in
  Ok (pymin (right inner_frame - 1) (left inner_frame + offset))%Q.

(** *** Clocks *)

(** [int(active)]. *)
Definition int_of_bool (b : bool) : value := VNum (if b then 1 else 0).

(** The [while] loop of [_clockToLine]; the state is [time], [active] and
    the [start] and [changes] of the line.  No result: the fuel ran out. *)
Fixpoint clock_loop {FO : Arithmetic} (fuel : nat) (on_length off_length : Q)
         (dstart dend : Q) (time : Q) (active : bool) (lstart : value)
         (changes : dict Q value) : option (value * dict Q value) :=
  if Qltb time dend then
    match fuel with
    | O => None
    | S fuel' =>
        let time := fadd time (if active then on_length else off_length) in
        let active := negb active in
        if Qle_bool time dstart
        then clock_loop fuel' on_length off_length dstart dend time active
                        (int_of_bool active) changes
        else clock_loop fuel' on_length off_length dstart dend time active
                        lstart (dict_set Qeq_bool time (int_of_bool active) changes)
    end
  else Some (lstart, changes).

(** [_clockToLine], given the diagram; only a clock is converted. *)
Definition clockToLine {FO : Arithmetic} (fuel : nat) (diagram : TimingDiagram)
           (clock : Signal) : option (result Signal) :=
  match clock with
  | Clock name offset length duty =>
      let on_length := fmul duty length in
      let off_length := fsub length on_length in
      match Line_init name (VNum 0) [] with
      | Raise e => Some (Raise e)
      | Ok (Line lname lstart lchanges) =>
          match pymod (- offset) length with
          | Raise e => Some (Raise e)
          | Ok m =>
              match clock_loop fuel on_length off_length
                               (inject_Z (start diagram)) (inject_Z (end_ diagram))
                               (- m)%Q false lstart lchanges with
              | None => None
              | Some (lstart, lchanges) =>
                  Some ('(_, lchanges) <- popitem lchanges ;;
                        Ok (Line lname lstart lchanges))
              end
          end
      | Ok _ => Some (Raise TypeError)
      end
  | _ => Some (Raise (OtherError "AttributeError"))
  end.

(** *** The renderer object *)

(** The attributes of a [Renderer]; an attribute that was never assigned has
    no value.  The painter draws on the image it was begun on, which is
    [image]. *)
Record Renderer := mkRenderer {
  image : option QImage;
  painter : PainterState;
  _font : option QFont;
  _diagram : option TimingDiagram;
  _background : option QColor;
  _color : option QColor;
  _outer_frame : option QRectF;
  _inner_frame : option QRectF
}.

(** [Renderer.__init__]. *)
Definition new_renderer : Renderer :=
  mkRenderer None fresh_painter None None None None None None.

(** A method: from the object before to an outcome and the object after.
    No result: the fuel ran out. *)
Definition M (A : Type) : Type := Renderer -> option (result A * Renderer).

Definition ret {A : Type} (a : A) : M A := fun r => Some (Ok a, r).

Definition throw {A : Type} (e : exn) : M A := fun r => Some (Raise e, r).

Definition mbind {A B : Type} (m : M A) (k : A -> M B) : M B :=
  fun r =>
    match m r with
    | Some (Ok a, r') => k a r'
    | Some (Raise e, r') => Some (Raise e, r')
    | None => None
    end.

Declare Scope method_scope.
Delimit Scope method_scope with method.
Notation "x <~ m ;; k" := (mbind m (fun x => k))
  (at level 61, m at next level, right associativity) : method_scope.
Notation "m ;;; k" := (mbind m (fun _ => k))
  (at level 61, right associativity) : method_scope.
Open Scope method_scope.

(** A computation without effect on the object. *)
Definition lift {A : Type} (x : result A) : M A := fun r => Some (x, r).

(** [self.<attribute>]. *)
Definition attr {A : Type} (get : Renderer -> option A) : M A :=
  fun r =>
    match get r with
    | Some a => Some (Ok a, r)
    | None => Some (Raise (OtherError "AttributeError"), r)
    end.

Definition update (f : Renderer -> Renderer) : M unit := fun r => Some (Ok tt, f r).

(** [try: body finally: cleanup]. *)
Definition finally {A : Type} (body : M A) (cleanup : M unit) : M A :=
  fun r =>
    match body r with
    | Some (res, r') =>
        match cleanup r' with
        | Some (Ok _, r'') => Some (res, r'')
        | Some (Raise e, r'') => Some (Raise e, r'')
        | None => None
        end
    | None => None
    end.

(** A [for] loop whose body is a method, with and without a loop variable
    kept from one turn to the next. *)
Fixpoint for_eachM {A S : Type} (body : A -> S -> M S) (l : list A) (s : S) : M S :=
  match l with
  | [] => ret s
  | a :: l' => s' <~ body a s ;; for_eachM body l' s'
  end.

(** *** The painter *)

Definition set_painter (f : PainterState -> PainterState) : M unit :=
  update (fun r => mkRenderer (image r) (f (painter r)) (_font r) (_diagram r)
                              (_background r) (_color r) (_outer_frame r)
                              (_inner_frame r)).

(** [painter.begin(self.image)]. *)
Definition painter_begin : M unit := set_painter (fun _ => fresh_painter).

(** [painter.end()]. *)
Definition painter_end : M unit := ret tt.

Definition setPen (p : QPen) : M unit :=
  set_painter (fun s => mkPainter p (brush s) (font s) (antialiasing s)
                                  (text_antialiasing s)).

Definition setBrush (b : QBrush) : M unit :=
  set_painter (fun s => mkPainter (pen s) b (font s) (antialiasing s)
                                  (text_antialiasing s)).

Definition setFont (f : QFont) : M unit :=
  set_painter (fun s => mkPainter (pen s) (brush s) (Some f) (antialiasing s)
                                  (text_antialiasing s)).

(** [setRenderHint(QPainter.Antialiasing, on)]. *)
Definition setAntialiasing (on : bool) : M unit :=
  set_painter (fun s => mkPainter (pen s) (brush s) (font s) on
                                  (text_antialiasing s)).

(** [setRenderHint(QPainter.TextAntialiasing)]. *)
Definition setTextAntialiasing : M unit :=
  set_painter (fun s => mkPainter (pen s) (brush s) (font s) (antialiasing s) true).

(** A drawing call: the primitive goes on the image with the settings of the
    painter. *)
Definition paint (p : primitive) : M unit :=
  img <~ attr image ;;
  update (fun r => mkRenderer
                     (Some (mkImage (image_width img) (image_height img)
                                    (painted img ++ [(painter r, p)])))
                     (painter r) (_font r) (_diagram r) (_background r)
                     (_color r) (_outer_frame r) (_inner_frame r)).

Section Methods.
Context {FM : FontMetrics} {FO : Arithmetic}.

(** *** Text and lines *)

(** [_getTextWidth(text)], with [strip_markup] left at [True]. *)
Definition _getTextWidth (text : string) : M Z :=
  f <~ attr _font ;;
  ret (text_width f (strip_markup text)).

Definition _getTextHeight : M Z :=
  f <~ attr _font ;;
  ret (text_height f).

Definition _timeDeltaToPixels (time : Q) : M Q :=
  d <~ attr _diagram ;;
  inner <~ attr _inner_frame ;;
  lift (timeDeltaToPixels d inner time).

Definition _timeToPixels (time : Q) : M Q :=
  d <~ attr _diagram ;;
  inner <~ attr _inner_frame ;;
  lift (timeToPixels d inner time).

Definition _clockToLine (fuel : nat) (clock : Signal) : M Signal :=
  d <~ attr _diagram ;;
  fun r =>
    match clockToLine fuel d clock with
    | Some res => Some (res, r)
    | None => None
    end.

Definition _drawLine (x1 y1 x2 y2 : Q) (width : Z) (dashed : bool) : M unit :=
  old_pen <~ (fun r => Some (Ok (pen (painter r)), r)) ;;
  setAntialiasing (negb (Qeq_bool x1 x2) && negb (Qeq_bool y1 y2)) ;;;
  c <~ attr _color ;;
  setPen (LinePen c width dashed) ;;;
  paint (DrawLine x1 y1 x2 y2) ;;;
  setPen old_pen ;;;
  setAntialiasing false.

(** The body of the loop of [_drawText] over the parts of the text; the loop
    variable is [rect]. *)
Definition drawText_part (metrics : QFont) (part : string) (rect : QRectF)
  : M QRectF :=
  let overline := PyStr.startswith part "!" in
  let part := if overline then PyStr.drop 1 part else part in
  let rect := setWidth rect (inject_Z (text_width metrics part)) in
  paint (DrawText rect part) ;;;
  (if overline
   then _drawLine (left rect) (top rect) (right rect) (top rect) 1 false
   else ret tt) ;;;
  ret (moveLeft rect (right rect)).

Definition _drawText (text : string) (center_x center_y : Q) (ignore_markup : bool)
  : M unit :=
  let clean_text := if ignore_markup then text else strip_markup text in
  metrics <~ (fun r => Some (Ok (match font (painter r) with
                                 | Some f => f
                                 | None => default_font
                                 end), r)) ;;
  let width := inject_Z (text_width metrics clean_text) in
  let height := inject_Z (text_height metrics) in
  let rect := mkRect (center_x - width / 2) (center_y - height / 2) width height in
  if ignore_markup then paint (DrawText rect text)
  else
    let '(before, sep, after) := PyStr.partition "/" text in
    for_eachM (drawText_part metrics) [before; sep; after] rect ;;;
    ret tt.

(** *** Signals *)

(** The changes a signal is drawn with: the copy of its changes, with the
    last one put back after [popitem] and one more at [closing] when the
    last one is before the end; without changes, the start value at
    [closing]. *)
Definition drawn_changes (changes : dict Q value) (start_value : value)
           (dend closing : Q) : result (dict Q value) :=
  match changes with
  | [] => Ok (dict_set Qeq_bool closing start_value [])
  | _ =>
      '(last, changes) <- popitem changes ;;
      let '(last_time, last_value) := last in
      let changes := dict_set Qeq_bool last_time last_value changes in
      Ok (if Qltb last_time dend
          then dict_set Qeq_bool closing last_value changes
          else changes)
  end.

(** [levels[v]] in [_drawLineSignal]. *)
Definition level (frame : QRectF) (v : value) : M Q :=
  if value_eqb v (VNum 1) then ret (top frame + rh frame * (3 # 10))%Q
  else if value_eqb v VNone then ret (top frame + rh frame * (1 # 2))%Q
  else if value_eqb v (VNum 0) then ret (top frame + rh frame * (7 # 10))%Q
  else throw KeyError.

(** The body of the loop of [_drawLineSignal]; the loop variable is
    [last]. *)
Definition drawLineSignal_step (diagram : TimingDiagram) (frame : QRectF)
           (change : Q * value) (last : Q * value) : M (Q * value) :=
  let '(time, v) := change in
  let '(last_time, last_value) := last in
  let half_delay := (inject_Z (delay diagram) / 2)%Q in
  last_x <~ _timeToPixels last_time ;;
  let time := (time + half_delay)%Q in
  x <~ _timeToPixels time ;;
  x_minus_delay <~ _timeToPixels (time - inject_Z (delay diagram))%Q ;;
  (if value_eqb last_value UNKNOWN then
     l0 <~ level frame (VNum 0) ;;
     _drawLine (last_x + 1)%Q l0 x_minus_delay l0 2 false ;;;
     l1 <~ level frame (VNum 1) ;;
     _drawLine (last_x + 1)%Q l1 x_minus_delay l1 2 false ;;;
     l0 <~ level frame (VNum 0) ;;
     lv <~ level frame v ;;
     _drawLine x_minus_delay l0 x lv 2 false ;;;
     l1 <~ level frame (VNum 1) ;;
     lv <~ level frame v ;;
     _drawLine x_minus_delay l1 x lv 2 false
   else if value_eqb v last_value then
     lv <~ level frame v ;;
     _drawLine (last_x + 1)%Q lv x lv 2 false
   else
     ll <~ level frame last_value ;;
     _drawLine (last_x + 1)%Q ll x_minus_delay ll 2 false ;;;
     ll <~ level frame last_value ;;
     lv <~ level frame v ;;
     _drawLine x_minus_delay ll x lv 2 false) ;;;
  ret (time, v).

Definition _drawLineSignal (line_start : value) (line_changes : dict Q value)
           (frame : QRectF) : M unit :=
  diagram <~ attr _diagram ;;
  let half_delay := (inject_Z (delay diagram) / 2)%Q in
  let dend := inject_Z (end_ diagram) in
  changes <~ lift (drawn_changes line_changes line_start dend
                                 (dend + half_delay)%Q) ;;
  let last := ((inject_Z (start diagram) - half_delay)%Q, line_start) in
  for_eachM (drawLineSignal_step diagram frame) changes last ;;;
  ret tt.

(** The body of the loop of [_drawBusSignal]; the loop variable is
    [last]. *)
Definition drawBusSignal_step (frame : QRectF) (high middle low margin : Q)
           (change : Q * value) (last : Q * value) : M (Q * value) :=
  let '(next_time, next_value) := change in
  let '(x, v) := last in
  next_pixels <~ _timeToPixels next_time ;;
  let next_x := (pymin (right frame - 1) next_pixels + margin)%Q in
  (match v with
   | VNone =>
       _drawLine (x + 1)%Q middle (pymin (right frame - 1) next_x) middle 2 false
   | _ =>
       let points := [((x + margin)%Q, low); ((x + margin)%Q, high)] in
       let points :=
         if Qltb (left frame) x
         then list_insert 1 ((x + 1)%Q, middle) points
         else list_insert 2 ((x + 1)%Q, high)
                (list_insert 1 ((x + 1)%Q, low) points) in
       let points :=
         if Qltb (next_x - margin) (right frame - 1)
         then points ++ [((next_x - margin)%Q, high); (next_x, middle);
                         ((next_x - margin)%Q, low)]
         else points ++ [((next_x - margin - 1)%Q, high);
                         ((next_x - margin - 1)%Q, low)] in
       old_pen <~ (fun r => Some (Ok (pen (painter r)), r)) ;;
       old_brush <~ (fun r => Some (Ok (brush (painter r)), r)) ;;
       setPen NoPen ;;;
       setAntialiasing true ;;;
       (match v with
        | UNKNOWN =>
            setBrush (SolidBrush Gray) ;;;
            paint (DrawConvexPolygon points)
        | VStr _ =>
            bg <~ attr _background ;;
            setBrush (SolidBrush bg) ;;;
            paint (DrawConvexPolygon points)
        | _ => throw TypeError
        end) ;;;
       setPen old_pen ;;;
       setBrush old_brush ;;;
       setAntialiasing false ;;;
       (match v with
        | VStr text =>
            let center_x := ((x + next_x + margin) / 2)%Q in
            h <~ _getTextHeight ;;
            let top_margin := (inject_Z h * (TEXT_HEIGHT - 1) / 2)%Q in
            let center_y := (center_y frame - top_margin)%Q in
            _drawText text center_x center_y true
        | _ => ret tt
        end) ;;;
       (if Qltb (left frame) x then
          _drawLine x middle (x + margin)%Q high 2 false ;;;
          _drawLine x middle (x + margin)%Q low 2 false
        else
          _drawLine (x + 1)%Q high (x + margin)%Q high 2 false ;;;
          _drawLine (x + 1)%Q low (x + margin)%Q low 2 false) ;;;
       _drawLine (x + margin + 1)%Q high (next_x - margin)%Q high 2 false ;;;
       _drawLine (x + margin + 1)%Q low (next_x - margin)%Q low 2 false ;;;
       (if Qltb (next_x - margin) (right frame - 1) then
          _drawLine (next_x - margin)%Q high next_x middle 2 false ;;;
          _drawLine (next_x - margin)%Q low next_x middle 2 false
        else ret tt)
   end) ;;;
  ret (next_x, next_value).

Definition _drawBusSignal (bus_start : value) (bus_changes : dict Q value)
           (frame : QRectF) : M unit :=
  diagram <~ attr _diagram ;;
  let high := (top frame + rh frame * (3 # 10))%Q in
  let middle := (top frame + rh frame * (1 # 2))%Q in
  let low := (top frame + rh frame * (7 # 10))%Q in
  margin <~ _timeDeltaToPixels (inject_Z (delay diagram) / 2)%Q ;;
  let dend := inject_Z (end_ diagram) in
  changes <~ lift (drawn_changes bus_changes bus_start dend dend) ;;
  first_x <~ _timeToPixels (inject_Z (start diagram)) ;;
  for_eachM (drawBusSignal_step frame high middle low margin) changes
            (first_x, bus_start) ;;;
  ret tt.

(** The body of the loop of [_drawSignals]; the loop variable is [frame]. *)
Definition drawSignals_step (fuel : nat) (signal : Signal) (frame : QRectF)
  : M QRectF :=
  signal <~ (match signal with
             | Clock _ _ _ _ => _clockToLine fuel signal
             | _ => ret signal
             end) ;;
  (match signal with
   | Line _ line_start line_changes => _drawLineSignal line_start line_changes frame
   | Bus _ bus_start bus_changes => _drawBusSignal bus_start bus_changes frame
   | Clock _ _ _ _ => throw TypeError
   end) ;;;
  w <~ _getTextWidth (signal_name signal ++ "  ")%string ;;
  _drawText (signal_name signal) (left frame - inject_Z w / 2)%Q
            ((top frame + bottom frame) / 2)%Q false ;;;
  ret (moveTop frame (top frame + rh frame)%Q).

Definition _drawSignals (fuel : nat) : M unit :=
  inner <~ attr _inner_frame ;;
  diagram <~ attr _diagram ;;
  let frame := translated inner 0 0 in
  h <~ lift (pydiv (rh frame) (inject_Z (Z.of_nat (List.length (signals diagram))))) ;;
  let frame := setHeight frame h in
  for_eachM (drawSignals_step fuel) (signals diagram) frame ;;;
  ret tt.

(** *** The frame *)

(** The body of the loop of [_drawFrame] over [enumerate(stops)]. *)
Definition drawFrame_step (inner : QRectF) (count : nat) (pixels_per_step : Q)
           (stop : nat * Q) (_ : unit) : M unit :=
  let '(index, x) := stop in
  _drawLine x (top inner + 1)%Q x (bottom inner) 1 true ;;;
  if negb (Nat.eqb index (count - 1)) then
    let center_x := (x + pixels_per_step / 2)%Q in
    h <~ _getTextHeight ;;
    let center_y := (top inner - inject_Z h * (1 # 2))%Q in
    _drawText (String "T" (str_of_nat (index + 1))) center_x center_y false
  else ret tt.

(** The list comprehension of [_drawFrame]. *)
Fixpoint stops_of (times : list Z) : M (list Q) :=
  match times with
  | [] => ret []
  | i :: rest =>
      x <~ _timeToPixels (inject_Z i) ;;
      xs <~ stops_of rest ;;
      ret (x :: xs)
  end.

Definition _drawFrame : M unit :=
  old_pen <~ (fun r => Some (Ok (pen (painter r)), r)) ;;
  c <~ attr _color ;;
  setPen (ColorPen c) ;;;
  outer <~ attr _outer_frame ;;
  paint (DrawRect outer) ;;;
  inner <~ attr _inner_frame ;;
  paint (DrawRect inner) ;;;
  setPen old_pen ;;;
  diagram <~ attr _diagram ;;
  match step diagram with
  | None => ret tt
  | Some step =>
      if step =? 0 then ret tt
      else
        let width := inject_Z (end_ diagram - start diagram) in
        pixels_per_unit <~ lift (pydiv (rw inner) width) ;;
        let pixels_per_step := (pixels_per_unit * inject_Z step)%Q in
        stops <~ stops_of (range0 (end_ diagram) step) ;;
        for_eachM (drawFrame_step inner (List.length stops) pixels_per_step)
                  (combine (seq 0 (List.length stops)) stops) tt
  end.

(** *** Loading and drawing *)

(** The list comprehension of [_loadDiagram]. *)
Fixpoint label_widths_of (l : list Signal) : M (list Z) :=
  match l with
  | [] => ret []
  | i :: rest =>
      w <~ _getTextWidth (signal_name i ++ "  ")%string ;;
      ws <~ label_widths_of rest ;;
      ret (w :: ws)
  end.

Definition _loadDiagram (diagram : TimingDiagram) : M unit :=
  update (fun r => mkRenderer
                     (Some (mkImage (width diagram) (height diagram) []))
                     (painter r)
                     (Some (mkFont (font_family diagram) (font_size diagram)))
                     (Some diagram)
                     (Some (color_of (background diagram)))
                     (Some (color_of (foreground diagram)))
                     (_outer_frame r) (_inner_frame r)) ;;;
  let margin := inject_Z (margin diagram) in
  let outer := mkRect margin margin
                 (inject_Z (width diagram) - 2 * margin)%Q
                 (inject_Z (height diagram) - 2 * margin)%Q in
  update (fun r => mkRenderer (image r) (painter r) (_font r) (_diagram r)
                              (_background r) (_color r) (Some outer)
                              (_inner_frame r)) ;;;
  label_widths <~ label_widths_of (signals diagram) ;;
  (match label_widths with
   | [] => throw AssertionError
   | _ => ret tt
   end) ;;;
  w1 <~ lift (max_list label_widths) ;;
  h1 <~ _getTextHeight ;;
  w2 <~ lift (max_list label_widths) ;;
  h2 <~ _getTextHeight ;;
  let inner := mkRect (margin + inject_Z w1)%Q
                      (margin + inject_Z h1 * TEXT_HEIGHT)%Q
                      (rw outer - inject_Z w2)%Q
                      (rh outer - inject_Z h2 * TEXT_HEIGHT)%Q in
  update (fun r => mkRenderer (image r) (painter r) (_font r) (_diagram r)
                              (_background r) (_color r) (_outer_frame r)
                              (Some inner)).

(** [Renderer.draw]; without a diagram, [ValueError]. *)
Definition draw (fuel : nat) (diagram : option TimingDiagram) : M unit :=
  match diagram with
  | None => throw ValueError
  | Some diagram =>
      _loadDiagram diagram ;;;
      painter_begin ;;;
      finally
        (f <~ attr _font ;;
         setFont f ;;;
         setTextAntialiasing ;;;
         img <~ attr image ;;
         bg <~ attr _background ;;
         paint (FillRect 0 0 (image_width img) (image_height img) bg) ;;;
         _drawFrame ;;;
         _drawSignals fuel)
        painter_end
  end.

(** What [draw] does once [_loadDiagram] has returned. *)
Definition draw_loaded (fuel : nat) : M unit :=
  painter_begin ;;;
  finally
    (f <~ attr _font ;;
     setFont f ;;;
     setTextAntialiasing ;;;
     img <~ attr image ;;
     bg <~ attr _background ;;
     paint (FillRect 0 0 (image_width img) (image_height img) bg) ;;;
     _drawFrame ;;;
     _drawSignals fuel)
    painter_end.

(** The renderer after [_loadDiagram] has succeeded, with painter settings
    [p]. *)
Definition loaded (d : TimingDiagram) (p : PainterState) : Renderer :=
  let f := mkFont (font_family d) (font_size d) in
  let m := inject_Z (margin d) in
  let widths := map (fun i => text_width f (strip_markup (signal_name i ++ "  ")%string))
                    (signals d) in
  let w := match max_list widths with Ok w => w | Raise _ => 0 end in
  let outer := mkRect m m (inject_Z (width d) - 2 * m)%Q
                      (inject_Z (height d) - 2 * m)%Q in
  mkRenderer (Some (mkImage (width d) (height d) [])) p (Some f) (Some d)
             (Some (color_of (background d))) (Some (color_of (foreground d)))
             (Some outer)
             (Some (mkRect (m + inject_Z w)%Q
                           (m + inject_Z (text_height f) * TEXT_HEIGHT)%Q
                           (rw outer - inject_Z w)%Q
                           (rh outer - inject_Z (text_height f) * TEXT_HEIGHT)%Q)).

End Methods.

(** Two outcomes of [draw] agree: the same result or exception, and the same
    image. *)
Definition same_drawing (a b : option (result unit * Renderer)) : Prop :=
  match a, b with
  | Some (res1, r1), Some (res2, r2) => res1 = res2 /\ image r1 = image r2
  | None, None => True
  | _, _ => False
  end.

End Render.

(** ** A small instance of the font metrics

    Every character is 7 pixels wide and a line is 15 pixels high, in every
    font: enough to run the renderer on a diagram. *)

Module Fixed.
Import Render.

#[export] Instance fixed_metrics : FontMetrics := {
  text_width := fun _ s => 7 * Z.of_nat (String.length s);
  text_height := fun _ => 15;
  default_font := mkFont "" 12
}.

(** The x coordinates of the dashed lines painted on an image, in order. *)
Definition dashed_rules (img : QImage) : list Q :=
  flat_map (fun sp =>
              match sp with
              | (s, DrawLine x1 _ _ _) =>
                  match pen s with
                  | LinePen _ _ true => [Qred x1]
                  | _ => []
                  end
              | _ => []
              end) (painted img).

(** The texts painted on an image, in order. *)
Definition texts (img : QImage) : list string :=
  flat_map (fun sp =>
              match sp with
              | (_, DrawText _ t) => [t]
              | _ => []
              end) (painted img).

End Fixed.

(** ** Two instances of the arithmetic *)

Module Numbers.
Import Model Render.

(** Exact arithmetic: the numbers of the clock are [int] or [Fraction]
    values; [a % b] has the sign of [b]. *)
#[export] Instance exact_arithmetic : Arithmetic := {
  fadd := Qplus;
  fsub := Qminus;
  fmul := Qmult;
  fmod := fun a b => (a - b * inject_Z (Qfloor (a / b)))%Q
}.

(** The double nearest to an integer, and to a quotient of two integers
    (correctly rounded when both are doubles themselves). *)
Definition float_of_Z (z : Z) : PrimFloat.float :=
  FloatOps.SF2Prim
    (SpecFloat.binary_normalize FloatOps.prec FloatOps.emax z 0 false).

Definition float_of_Q (q : Q) : PrimFloat.float :=
  PrimFloat.div (float_of_Z (Qnum q)) (float_of_Z (Zpos (Qden q))).

(** The rational a finite double denotes, in lowest terms (0 for an
    infinity or a NaN, which the model leaves out). *)
Definition Q_of_float (f : PrimFloat.float) : Q :=
  match FloatOps.Prim2SF f with
  | SpecFloat.S754_finite s m e =>
      let v := if 0 <=? e then inject_Z (Zpos m * 2 ^ e)
               else (Zpos m # Pos.shiftl 1 (Z.to_N (- e)))%Q in
      Qred (if s then Qopp v else v)
  | _ => 0%Q
  end.

(** [n / d] rounded towards zero. *)
Definition Qtruncate (q : Q) : Z := Z.quot (Qnum q) (Zpos (Qden q)).

(** Python's [a % b] on floats: C's [fmod], which is exact, and then [b]
    added when the remainder is not zero and its sign is not the sign of
    [b]. *)
Definition double_mod (a b : Q) : Q :=
  let r := Qred (a - b * inject_Z (Qtruncate (a / b)))%Q in
  if negb (Qeq_bool r 0) && negb (Bool.eqb (Qltb b 0) (Qltb r 0))
  then Q_of_float (PrimFloat.add (float_of_Q r) (float_of_Q b))
  else r.

(** IEEE double arithmetic, rounding to nearest even: the arguments are the
    rationals of doubles. *)
Definition double_arithmetic : Arithmetic := {|
  fadd := fun a b => Q_of_float (PrimFloat.add (float_of_Q a) (float_of_Q b));
  fsub := fun a b => Q_of_float (PrimFloat.sub (float_of_Q a) (float_of_Q b));
  fmul := fun a b => Q_of_float (PrimFloat.mul (float_of_Q a) (float_of_Q b));
  fmod := double_mod
|}.

(** The double that [float] reads from a decimal literal [n / d]. *)
Definition double (q : Q) : Q := Q_of_float (float_of_Q q).

End Numbers.

(** ** The expansion of a clock, edge by edge *)

Module Expansion.
Import Model Render.

(** The next [n] edges after [time]: each comes one run later than the one
    before, a high run of [on_length] when the clock is active and a low run
    of [off_length] when it is not, and flips the clock. *)
Fixpoint edges {FO : Arithmetic} (on_length off_length : Q) (time : Q)
         (active : bool) (n : nat) : list (Q * bool) :=
  match n with
  | O => []
  | S n' =>
      let time' := fadd time (if active then on_length else off_length) in
      (time', negb active) :: edges on_length off_length time' (negb active) n'
  end.

(** Edges that alternate: each flips the value, after a high run of [high]
    when the value was 1 and after a low run of [low] when it was 0. *)
Fixpoint alternate {FO : Arithmetic} (high low : Q) (time : Q) (active : bool)
         (g : list (Q * bool)) : Prop :=
  match g with
  | [] => True
  | (time', active') :: g' =>
      active' = negb active
      /\ time' = fadd time (if active then high else low)
      /\ alternate high low time' active' g'
  end.

(** Times that increase: each is later than the one before. *)
Fixpoint increasing (times : list Q) : Prop :=
  match times with
  | a :: (b :: _) as rest => (a < b)%Q /\ increasing rest
  | _ => True
  end.

(** The changes of the line: the edges after [dstart], as 0/1 changes. *)
Definition changes_of (dstart : Q) (g : list (Q * bool)) : dict Q value :=
  map (fun e => (fst e, int_of_bool (snd e)))
      (filter (fun e => negb (Qle_bool (fst e) dstart)) g).

(** The start value of the line: the value of the last edge that is not
    after [dstart], or [lstart] without such an edge. *)
Definition start_of (dstart : Q) (g : list (Q * bool)) (lstart : value) : value :=
  last (map (fun e => int_of_bool (snd e))
            (filter (fun e => Qle_bool (fst e) dstart) g)) lstart.

(** The start value and the changes of the line after the edges [g], from
    the start value [lstart] and the changes [changes]. *)
Definition after (dstart : Q) (g : list (Q * bool)) (lstart : value)
           (changes : dict Q value) : value * dict Q value :=
  (start_of dstart g lstart, changes ++ changes_of dstart g).

(** The changes of a line with their times in lowest terms. *)
Definition reduced (s : Signal) : Signal :=
  match s with
  | Line n st c => Line n st (map (fun kv => (Qred (fst kv), snd kv)) c)
  | _ => s
  end.

End Expansion.

(** * Properties *)

Import Model Parse.

(** ** Loops *)

Lemma for_each_app {A S : Type} (body : A -> S -> result S) (l1 l2 : list A) (s : S) :
  for_each body (l1 ++ l2) s = (s' <- for_each body l1 s ;; for_each body l2 s').
Proof.
  revert s; induction l1 as [|a l1 IH]; intros s; simpl; [reflexivity|].
  destruct (body a s) as [s1|e]; simpl; auto.
Qed.

(** ** The model constructors *)

(** What [TimingDiagram.__init__] tests: it raises exactly when the margin is
    strictly more than half the width or half the height. *)
Lemma TimingDiagram_init_raises w h m fs ff bg fg st en sp dl sg :
  (exists e, TimingDiagram_init w h m fs ff bg fg st en sp dl sg = Raise e) <->
  (inject_Z w / 2 < inject_Z m \/ inject_Z h / 2 < inject_Z m)%Q.
Proof.
  unfold TimingDiagram_init, Qltb.
  destruct (Qle_bool (inject_Z m) (inject_Z w / 2)) eqn:Ew;
    destruct (Qle_bool (inject_Z m) (inject_Z h / 2)) eqn:Eh; simpl;
    try (apply Qle_bool_iff in Ew); try (apply Qle_bool_iff in Eh).
  - split; [intros [e He]; discriminate | intros [H|H]; exfalso; lra].
  - split; [intros _; right | intros _; eexists; reflexivity].
    apply Qnot_le_lt; intros H; apply Qle_bool_iff in H; congruence.
  - split; [intros _; left | intros _; eexists; reflexivity].
    apply Qnot_le_lt; intros H; apply Qle_bool_iff in H; congruence.
  - split; [intros _; left | intros _; eexists; reflexivity].
    apply Qnot_le_lt; intros H; apply Qle_bool_iff in H; congruence.
Qed.

(** C3.  [TimingDiagram(width=800, height=800, margin=400)] is constructed:
    the margin is exactly half the width and half the height, and no error
    is raised, although the margin is not less than half the width. *)
Theorem margin_half_width_accepted :
  exists d, TimingDiagram_init 800 800 400 12 "Times New Roman" 16777215 0 0 100
              None 10 None = Ok d
            /\ (inject_Z (margin d) == inject_Z (width d) / 2)%Q
            /\ (inject_Z (margin d) == inject_Z (height d) / 2)%Q
            /\ ~ (inject_Z (margin d) < inject_Z (width d) / 2)%Q.
Proof.
  eexists; split; [reflexivity|]; simpl.
  repeat split; try reflexivity.
  intros H; vm_compute in H; discriminate.
Qed.

(** C7.  [Bus('b', None, {1: 42})] is constructed, with the integer 42 among
    its change values; [Line.__init__] rejects the same arguments. *)
Theorem bus_value_not_validated :
  Bus_init "b" VNone [(VNum 1, VNum 42)] = Ok (Bus "b" VNone [(1%Q, VNum 42)])
  /\ is_str (VNum 42) = false
  /\ Line_init "b" VNone [(VNum 1, VNum 42)] = Raise TypeError.
Proof. repeat split. Qed.

(** [Bus.__init__] never looks at a value: with numeric times that are
    pairwise different it succeeds whatever the values are. *)
Lemma Bus_fill_ignores_values (items : list (Q * value)) (f : value -> value) acc :
  Bus_fill (map (fun kv => (fst kv, f (snd kv))) items)
           (map (fun kv => (fst kv, f (snd kv))) acc)
  = match Bus_fill items acc with
    | Ok c => Ok (map (fun kv => (fst kv, f (snd kv))) c)
    | Raise e => Raise e
    end.
Proof.
  revert acc; induction items as [|[t v] items IH]; intros acc; simpl; [reflexivity|].
  assert (Hin : forall d : dict Q value,
             dict_in Qeq_bool t (map (fun kv => (fst kv, f (snd kv))) d)
             = dict_in Qeq_bool t d).
  { induction d as [|[k x] d IHd]; simpl; [reflexivity|]. now rewrite IHd. }
  rewrite Hin. destruct (dict_in Qeq_bool t acc); [reflexivity|].
  assert (Hset : forall d : dict Q value,
             dict_set Qeq_bool t (f v) (map (fun kv => (fst kv, f (snd kv))) d)
             = map (fun kv => (fst kv, f (snd kv))) (dict_set Qeq_bool t v d)).
  { induction d as [|[k x] d IHd]; simpl; [reflexivity|].
    destruct (Qeq_bool k t); simpl; [reflexivity | now rewrite IHd]. }
  rewrite Hset. apply IH.
Qed.

(** ** Dictionaries keyed by time *)

Lemma dict_in_Qeq {V : Type} (t t' : Q) (d : dict Q V) :
  (t == t')%Q -> dict_in Qeq_bool t d = dict_in Qeq_bool t' d.
Proof.
  intros E; unfold dict_in; induction d as [|[k v] d IH]; simpl; [reflexivity|].
  rewrite IH; f_equal.
  destruct (Qeq_bool k t) eqn:A, (Qeq_bool k t') eqn:C; try reflexivity.
  - apply Qeq_bool_iff in A. apply Qeq_bool_neq in C.
    exfalso; apply C. now rewrite A.
  - apply Qeq_bool_iff in C. apply Qeq_bool_neq in A.
    exfalso; apply A. now rewrite C, E.
Qed.

Lemma dict_in_set_same {V : Type} (t : Q) (v : V) (d : dict Q V) :
  dict_in Qeq_bool t (dict_set Qeq_bool t v d) = true.
Proof.
  induction d as [|[k x] d IH]; simpl.
  - now rewrite Qeq_bool_refl.
  - destruct (Qeq_bool k t) eqn:E; simpl; rewrite E; simpl; auto.
Qed.

Lemma dict_in_set_mono {V : Type} (t k : Q) (v : V) (d : dict Q V) :
  dict_in Qeq_bool t d = true -> dict_in Qeq_bool t (dict_set Qeq_bool k v d) = true.
Proof.
  induction d as [|[k' x] d IH]; simpl; [discriminate|].
  intros H; destruct (Qeq_bool k' k); simpl; [exact H|].
  apply orb_true_iff in H; apply orb_true_iff.
  destruct H as [H|H]; [left | right]; auto.
Qed.

(** ** The lines of a signal block *)

Section SignalLines.
Context {B : Builtins}.

(** A change line that is accepted leaves the change times that were there. *)
Lemma signal_step_keeps ty nl p c p' c' t :
  signal_step ty nl (p, c) = Ok (p', c') ->
  dict_in Qeq_bool t c = true -> dict_in Qeq_bool t c' = true.
Proof.
  unfold signal_step; destruct nl as [n l].
  destruct (_splitLine n l true) as [[[tg op] v]|e]; cbn [bind]; [|discriminate].
  destruct (String.eqb op "->").
  - destruct (String.eqb ty "clock"); [discriminate|].
    destruct (_parseFloat tg n l) as [q|e]; cbn [bind]; [|discriminate].
    destruct (dict_in Qeq_bool q c); [discriminate|].
    destruct (_parseSignalValue v ty n l) as [x|e]; cbn [bind]; [|discriminate].
    destruct (String.eqb ty "line" && value_eqb x UNKNOWN); [discriminate|].
    intros H; injection H as <- <-. apply dict_in_set_mono.
  - destruct (lookup ty SIGNAL_PROPERTIES) as [allowed|]; cbn [bind]; [|discriminate].
    destruct (negb (mem tg allowed)); [discriminate|].
    destruct (String.eqb tg "start").
    + destruct (_parseSignalValue v ty n l); cbn [bind]; [|discriminate].
      intros H; injection H as <- <-; auto.
    + destruct (_parseFloat v n l); cbn [bind]; [|discriminate].
      intros H; injection H as <- <-; auto.
Qed.

Lemma signal_lines_keep ty ls : forall p c p' c' t,
  for_each (signal_step ty) ls (p, c) = Ok (p', c') ->
  dict_in Qeq_bool t c = true -> dict_in Qeq_bool t c' = true.
Proof.
  induction ls as [|nl ls IH]; cbn [for_each]; intros p c p' c' t H Hin.
  - injection H as <- <-; exact Hin.
  - destruct (signal_step ty nl (p, c)) as [[p1 c1]|e] eqn:E; cbn [bind] in H; [|discriminate H].
    eapply IH; [exact H|]. eapply signal_step_keeps; eauto.
Qed.

(** A change line that is accepted records its time. *)
Lemma signal_step_records ty n l p c p' c' tg v q :
  _splitLine n l true = Ok (tg, "->", v) ->
  py_float tg = Some q ->
  signal_step ty (n, l) (p, c) = Ok (p', c') ->
  dict_in Qeq_bool q c' = true.
Proof.
  intros Hs Hf; unfold signal_step; rewrite Hs; cbn [bind].
  destruct (String.eqb ty "clock"); [discriminate|].
  unfold _parseFloat, _parseNumber; rewrite Hf; cbn [bind].
  destruct (dict_in Qeq_bool q c); [discriminate|].
  destruct (_parseSignalValue v ty n l) as [x|e]; cbn [bind]; [|discriminate].
  destruct (String.eqb ty "line" && value_eqb x UNKNOWN); [discriminate|].
  intros H; injection H as <- <-. apply dict_in_set_same.
Qed.

(** A change line whose time is already there is a duplicate. *)
Lemma signal_step_dupe ty n l p c tg v q :
  ty = "line" \/ ty = "bus" ->
  _splitLine n l true = Ok (tg, "->", v) ->
  py_float tg = Some q ->
  dict_in Qeq_bool q c = true ->
  signal_step ty (n, l) (p, c) = Raise (TimingSyntaxError change_dupe (n, l)).
Proof.
  intros Hty Hs Hf Hin; unfold signal_step; rewrite Hs; cbn [bind].
  assert (String.eqb ty "clock" = false) as -> by (destruct Hty; subst; reflexivity).
  unfold _parseFloat, _parseNumber; rewrite Hf; cbn [bind]. now rewrite Hin.
Qed.

(** Two change lines with the same time in one block: when the lines before
    the second one are accepted, the second one is the duplicate. *)
Lemma signal_lines_dupe ty pre mid post n1 l1 n2 l2 t1 v1 q1 t2 v2 q2 st :
  ty = "line" \/ ty = "bus" ->
  _splitLine n1 l1 true = Ok (t1, "->", v1) -> py_float t1 = Some q1 ->
  _splitLine n2 l2 true = Ok (t2, "->", v2) -> py_float t2 = Some q2 ->
  (q1 == q2)%Q ->
  for_each (signal_step ty) (pre ++ (n1, l1) :: mid) ([], []) = Ok st ->
  for_each (signal_step ty) (pre ++ (n1, l1) :: mid ++ (n2, l2) :: post) ([], [])
  = Raise (TimingSyntaxError change_dupe (n2, l2)).
Proof.
  intros Hty Hs1 Hf1 Hs2 Hf2 Hq Hpre.
  replace (pre ++ (n1, l1) :: mid ++ (n2, l2) :: post)
    with ((pre ++ (n1, l1) :: mid) ++ (n2, l2) :: post)
    by (rewrite <- app_assoc; reflexivity).
  rewrite for_each_app, Hpre; cbn [bind].
  rewrite for_each_app in Hpre.
  destruct (for_each (signal_step ty) pre ([], [])) as [[p0 c0]|e];
    cbn [bind for_each] in Hpre; [|discriminate Hpre].
  destruct (signal_step ty (n1, l1) (p0, c0)) as [[p1 c1]|e] eqn:E1; cbn [bind] in Hpre;
    [|discriminate Hpre].
  destruct st as [p c].
  assert (Hin : dict_in Qeq_bool q2 c = true).
  { rewrite <- (dict_in_Qeq q1 q2 c Hq).
    eapply signal_lines_keep; [exact Hpre|].
    exact (signal_step_records ty n1 l1 p0 c0 p1 c1 t1 v1 q1 Hs1 Hf1 E1). }
  cbn [for_each].
  rewrite (signal_step_dupe ty n2 l2 p c t2 v2 q2 Hty Hs2 Hf2 Hin). reflexivity.
Qed.

End SignalLines.

(** C8.  Two change lines of one line or bus block give the same time.  When
    the input is accepted up to the second of them (the blocks are grouped,
    the style and time blocks and the signal blocks before this one are
    accepted, and so are the lines of this block before the second change
    line), parsing raises [change_dupe] with the line number and the text of
    the second occurrence. *)
Theorem change_dupe_second_occurrence {B : Builtins}
    (code : string) (tl sl : list numbered_line) (before after : list signal_block)
    (ty name : string) (pre mid post : list numbered_line)
    (n1 n2 : nat) (l1 l2 t1 v1 t2 v2 : string) (q1 q2 : Q)
    (d : TimingDiagram) (st : signal_state) :
  _exractBlocks (number_lines O (map PyStr.strip (PyStr.splitlines code)))
  = Ok (tl, sl,
        before ++ (ty, name, pre ++ (n1, l1) :: mid ++ (n2, l2) :: post) :: after) ->
  _parseBlocks tl sl before = Ok d ->
  ty = "line" \/ ty = "bus" ->
  _splitLine n1 l1 true = Ok (t1, "->", v1) -> py_float t1 = Some q1 ->
  _splitLine n2 l2 true = Ok (t2, "->", v2) -> py_float t2 = Some q2 ->
  (q1 == q2)%Q ->
  for_each (signal_step ty) (pre ++ (n1, l1) :: mid) ([], []) = Ok st ->
  parseTimingDescription code = Raise (TimingSyntaxError change_dupe (n2, l2)).
Proof.
  intros Hx Hb Hty Hs1 Hf1 Hs2 Hf2 Hq Hpre.
  unfold parseTimingDescription; rewrite Hx; cbn [bind].
  unfold _parseBlocks in *.
  destruct default_diagram as [d0|e]; cbn [bind] in *; [|discriminate Hb].
  destruct (for_each style_step sl d0) as [d1|e]; cbn [bind] in *; [|discriminate Hb].
  destruct (for_each time_step tl d1) as [d2|e]; cbn [bind] in *; [|discriminate Hb].
  rewrite for_each_app, Hb; cbn [bind for_each].
  unfold block_step at 1.
  rewrite (signal_lines_dupe ty pre mid post n1 l1 n2 l2 t1 v1 q1 t2 v2 q2 st);
    auto.
Qed.

(** The text of the example: a line block with [5->1] and, later, [5->0]. *)
Lemma change_dupe_second_occurrence_witness :
  parseTimingDescription (B := Plain.plain_builtins)
    (PyStr.unlines ["line a:"; "start = 0"; "5->1"; "7->Z"; "5->0"; "9->1"])
  = Raise (TimingSyntaxError change_dupe (5%nat, "5->0")).
Proof.
  apply (change_dupe_second_occurrence (B := Plain.plain_builtins)
           _ [] [] [] [] "line" "a" [(2%nat, "start = 0")] [(4%nat, "7->Z")]
           [(6%nat, "9->1")] 3 5 "5->1" "5->0" "5" "1" "5" "0" 5%Q 5%Q)
    with (d := mkDiagram 800 600 20 12 "Times New Roman" 16777215 0 0 100 None 10 [])
         (st := ([("start", VNum 0)], [(5%Q, VNum 1); (7%Q, VNone)]));
    try reflexivity.
  left; reflexivity.
Defined.

(** ** Whole texts *)

(** A property line of a signal block whose value is a number. *)
Lemma signal_step_number {B : Builtins} ty n l tg v q allowed p c :
  _splitLine n l true = Ok (tg, "=", v) ->
  lookup ty SIGNAL_PROPERTIES = Some allowed ->
  mem tg allowed = true ->
  String.eqb tg "start" = false ->
  py_float v = Some q ->
  signal_step ty (n, l) (p, c) = Ok (dict_set String.eqb tg (VNum q) p, c).
Proof.
  intros Hs Hl Hm Ht Hf; unfold signal_step; rewrite Hs; cbn [bind].
  change (("=" =? "->")%string) with false; cbv iota.
  rewrite Hl, Hm, Ht; cbn [negb]. unfold _parseFloat, _parseNumber; rewrite Hf; reflexivity.
Qed.

(** C1.  The text
    [clock c:] / [length = 1] / [offset = 0] / [duty = 2]
    is grouped and read without a syntax error; [Clock.__init__] then raises
    a plain [ValueError], which leaves [parseTimingDescription] as it is: the
    outcome is not a [TimingSyntaxError]. *)
Theorem clock_duty_out_of_range_raises_ValueError {B : Builtins} :
  py_float "1" = Some 1%Q -> py_float "0" = Some 0%Q -> py_float "2" = Some 2%Q ->
  parseTimingDescription
    (PyStr.unlines ["clock c:"; "length = 1"; "offset = 0"; "duty = 2"])
  = Raise ValueError
  /\ is_syntax_error ValueError = false.
Proof.
  intros H1 H0 H2; split; [|reflexivity].
  unfold parseTimingDescription.
  replace (_exractBlocks _)
    with (Ok (@nil numbered_line, @nil numbered_line,
              [("clock", "c", [(2%nat, "length = 1"); (3%nat, "offset = 0");
                               (4%nat, "duty = 2")])]))
    by (vm_compute; reflexivity).
  cbn [bind]. unfold _parseBlocks.
  replace default_diagram
    with (Ok (mkDiagram 800 600 20 12 "Times New Roman" 16777215 0 0 100 None 10 []))
    by reflexivity.
  cbn [bind for_each]. unfold block_step.
  cbn [for_each].
  rewrite (signal_step_number "clock" 2 "length = 1" "length" "1" 1%Q
             ["length"; "offset"; "duty"]) by (assumption || reflexivity).
  cbn [bind].
  rewrite (signal_step_number "clock" 3 "offset = 0" "offset" "0" 0%Q
             ["length"; "offset"; "duty"]) by (assumption || reflexivity).
  cbn [bind].
  rewrite (signal_step_number "clock" 4 "duty = 2" "duty" "2" 2%Q
             ["length"; "offset"; "duty"]) by (assumption || reflexivity).
  reflexivity.
Qed.

Lemma clock_duty_out_of_range_raises_ValueError_witness :
  parseTimingDescription (B := Plain.plain_builtins)
    (PyStr.unlines ["clock c:"; "length = 1"; "offset = 0"; "duty = 2"])
  = Raise ValueError
  /\ is_syntax_error ValueError = false.
Proof.
  apply (clock_duty_out_of_range_raises_ValueError (B := Plain.plain_builtins));
    reflexivity.
Defined.

(** C2, as stated: the header [clock:] has no name, and grouping the lines
    stops there with [signal_args] on line 1; the change line is never
    reached. *)
Lemma clock_without_name_is_signal_args :
  parseTimingDescription (B := Plain.plain_builtins)
    (PyStr.unlines ["clock:"; "0->1"])
  = Raise (TimingSyntaxError signal_args (1%nat, "clock:"))
  /\ forall text,
      parseTimingDescription (B := Plain.plain_builtins)
        (PyStr.unlines ["clock:"; "0->1"])
      <> Raise (TimingSyntaxError clock_change (2%nat, text)).
Proof.
  split; [reflexivity | intros text H; vm_compute in H; discriminate H].
Qed.

(** C2, amended: with a name in the header, [clock c:], the change line on
    line 2 is rejected with [clock_change], whatever the built-in functions
    do; the header [clock:] alone is [signal_args] on line 1. *)
Theorem clock_change_on_line_2 {B : Builtins} :
  parseTimingDescription (PyStr.unlines ["clock c:"; "0->1"])
  = Raise (TimingSyntaxError clock_change (2%nat, "0->1"))
  /\ parseTimingDescription (PyStr.unlines ["clock:"; "0->1"])
     = Raise (TimingSyntaxError signal_args (1%nat, "clock:")).
Proof. split; reflexivity. Qed.

(** C10.  The text [style:] / [margin = 500] is accepted: the diagram that
    comes back has margin 500 and the default width 800, so its margin is
    not less than half its width; the constructor refuses the same values. *)
Theorem parsed_margin_not_checked {B : Builtins} :
  py_int "500" = Some 500 ->
  exists d,
    parseTimingDescription (PyStr.unlines ["style:"; "margin = 500"]) = Ok d
    /\ margin d = 500 /\ width d = 800
    /\ ~ (inject_Z (margin d) < inject_Z (width d) / 2)%Q
    /\ TimingDiagram_init (width d) (height d) (margin d) (font_size d)
         (font_family d) (background d) (foreground d) (start d) (end_ d)
         (step d) (delay d) (Some (signals d)) = Raise ValueError.
Proof.
  intros H.
  exists (mkDiagram 800 600 500 12 "Times New Roman" 16777215 0 0 100 None 10 []).
  split; [|repeat split; try reflexivity; intros C; vm_compute in C; discriminate C].
  unfold parseTimingDescription.
  replace (_exractBlocks _)
    with (Ok (@nil numbered_line, [(2%nat, "margin = 500")], @nil signal_block))
    by (vm_compute; reflexivity).
  cbn [bind]. unfold _parseBlocks.
  replace default_diagram
    with (Ok (mkDiagram 800 600 20 12 "Times New Roman" 16777215 0 0 100 None 10 []))
    by reflexivity.
  cbn [bind for_each]. unfold style_step.
  replace (_splitLine 2 "margin = 500" false) with (Ok ("margin", "=", "500"))
    by (vm_compute; reflexivity).
  cbn [bind].
  change (lookup "margin" STYLE_PROPERTIES) with (Some ty_number); cbv iota.
  unfold _parseInt, _parseNumber; rewrite H; reflexivity.
Qed.

Lemma parsed_margin_not_checked_witness :
  exists d,
    parseTimingDescription (B := Plain.plain_builtins)
      (PyStr.unlines ["style:"; "margin = 500"]) = Ok d
    /\ margin d = 500 /\ width d = 800
    /\ ~ (inject_Z (margin d) < inject_Z (width d) / 2)%Q
    /\ TimingDiagram_init (width d) (height d) (margin d) (font_size d)
         (font_family d) (background d) (foreground d) (start d) (end_ d)
         (step d) (delay d) (Some (signals d)) = Raise ValueError.
Proof.
  apply (parsed_margin_not_checked (B := Plain.plain_builtins)); reflexivity.
Defined.

(** The end-to-end text of the specification: a time block and one line
    signal with two changes. *)
Example parse_time_and_line :
  parseTimingDescription (B := Plain.plain_builtins)
    (PyStr.unlines ["time:"; "  start = 0"; "  end = 10"; "line A:";
                    "  start = 0"; "  2 -> 1"; "  6 -> 0"])
  = Ok (mkDiagram 800 600 20 12 "Times New Roman" 16777215 0 0 10 None 10
                  [Line "A" (VNum 0) [(2%Q, VNum 1); (6%Q, VNum 0)]]).
Proof. reflexivity. Qed.

(** Comment lines and blank lines keep their numbers; a clock block without
    its duty cycle is reported on the last line of the block. *)
Example parse_missing_duty :
  parseTimingDescription (B := Plain.plain_builtins)
    (PyStr.unlines ["# a clock"; ""; "clock foo:"; "length = 4"; "offset = 0"])
  = Raise (TimingSyntaxError missing_prop (5%nat, "offset = 0")).
Proof. reflexivity. Qed.

(** ** Times and pixels *)

Import Render.

Lemma Qltb_lt (a b : Q) : Qltb a b = true <-> (a < b)%Q.
Proof.
  unfold Qltb; rewrite negb_true_iff; split.
  - intros H; apply Qnot_le_lt; intros C; apply Qle_bool_iff in C; congruence.
  - intros H; destruct (Qle_bool b a) eqn:E; [|reflexivity].
    apply Qle_bool_iff in E; lra.
Qed.

Lemma Qltb_ge (a b : Q) : Qltb a b = false <-> (b <= a)%Q.
Proof.
  unfold Qltb; rewrite negb_false_iff; apply Qle_bool_iff.
Qed.

Lemma pymax_Qmax (a b : Q) : (pymax a b == Qmax a b)%Q.
Proof.
  unfold pymax; destruct (Qltb a b) eqn:E.
  - apply Qltb_lt in E. symmetry; apply Q.max_r; lra.
  - apply Qltb_ge in E. symmetry; apply Q.max_l; lra.
Qed.

Lemma pymin_Qmin (a b : Q) : (pymin a b == Qmin a b)%Q.
Proof.
  unfold pymin; destruct (Qltb b a) eqn:E.
  - apply Qltb_lt in E. symmetry; apply Q.min_r; lra.
  - apply Qltb_ge in E. symmetry; apply Q.min_l; lra.
Qed.

Lemma pydiv_nonzero (a b : Q) : ~ (b == 0)%Q -> pydiv a b = Ok (a / b)%Q.
Proof.
  intros H; unfold pydiv. destruct (Qeq_bool b 0) eqn:E; [|reflexivity].
  apply Qeq_bool_iff in E; contradiction.
Qed.

Lemma inject_Z_nonzero (z : Z) : z <> 0 -> ~ (inject_Z z == 0)%Q.
Proof.
  intros H E; apply H. unfold Qeq in E; simpl in E. lia.
Qed.

(** C5.  With a loaded diagram whose [end] differs from its [start], the
    time-to-pixel mapping returns, for every time [t],
    [min(right - 1, left + max(0, (t - start) * pixelsPerUnit))] with
    [pixelsPerUnit = width / (end - start)] of the inner frame; the result
    never exceeds [right - 1], and the renderer is left as it was. *)
Theorem timeToPixels_clamped (r : Renderer)
    (d : TimingDiagram) (inner : QRectF) (t : Q) :
  _diagram r = Some d -> _inner_frame r = Some inner -> end_ d <> start d ->
  exists x,
    _timeToPixels t r = Some (Ok x, r)
    /\ (x == Qmin (right inner - 1)
                  (left inner
                   + Qmax 0 ((t - inject_Z (start d))
                             * (rw inner / inject_Z (end_ d - start d)))))%Q
    /\ (x <= right inner - 1)%Q.
Proof.
  intros Hd Hi Hne.
  unfold _timeToPixels, mbind, attr, lift; rewrite Hd, Hi.
  unfold timeToPixels, timeDeltaToPixels.
  rewrite pydiv_nonzero by (apply inject_Z_nonzero; lia).
  cbn [bind]. eexists; split; [reflexivity|]. split.
  - rewrite pymin_Qmin, pymax_Qmax. reflexivity.
  - rewrite pymin_Qmin. apply Q.le_min_l.
Qed.

Lemma timeToPixels_clamped_witness :
  exists x,
    _timeToPixels 5
      (mkRenderer None fresh_painter None
         (Some (mkDiagram 800 600 20 12 "Times New Roman" 16777215 0 0 10 None 10 []))
         None None None (Some (mkRect 100 50 600 400)))
    = Some (Ok x,
            mkRenderer None fresh_painter None
              (Some (mkDiagram 800 600 20 12 "Times New Roman" 16777215 0 0 10
                               None 10 []))
              None None None (Some (mkRect 100 50 600 400)))
    /\ (x == Qmin (100 + 600 - 1)
                  (100 + Qmax 0 ((5 - inject_Z 0) * (600 / inject_Z (10 - 0)))))%Q
    /\ (x <= 100 + 600 - 1)%Q.
Proof.
  apply (timeToPixels_clamped
           (mkRenderer None fresh_painter None
              (Some (mkDiagram 800 600 20 12 "Times New Roman" 16777215 0 0 10
                               None 10 []))
              None None None (Some (mkRect 100 50 600 400)))
           (mkDiagram 800 600 20 12 "Times New Roman" 16777215 0 0 10 None 10 [])
           (mkRect 100 50 600 400) 5);
    [reflexivity | reflexivity | simpl; lia].
Defined.

(** The mapping without a renderer: the same value. *)
Lemma timeToPixels_value (d : TimingDiagram) (inner : QRectF) (t : Q) :
  end_ d <> start d ->
  timeToPixels d inner t
  = Ok (pymin (right inner - 1)
              (left inner
               + pymax 0 ((t - inject_Z (start d))
                          * (rw inner / inject_Z (end_ d - start d)))))%Q.
Proof.
  intros Hne; unfold timeToPixels, timeDeltaToPixels.
  rewrite pydiv_nonzero by (apply inject_Z_nonzero; lia). reflexivity.
Qed.

(** ** The frame *)

(** C6.  A diagram from -20 to 20 with step 10 and one line signal is
    drawn.  The times of the rules are [range(0, 20, 10)], that is 0 and 10:
    two dashed rules are painted, at the pixels of the times 0 and 10, and
    one label, [T1].  The multiples -20 and -10 of the step, which lie
    between [start] and [end], get no rule. *)
Theorem step_rules_start_at_zero {FO : Arithmetic} :
  let d := mkDiagram 800 600 20 12 "Times New Roman" 16777215 0 (-20) 20 (Some 10) 10
                     [Line "A" (VNum 0) [(2%Q, VNum 1)]] in
  range0 (end_ d) 10 = [0; 10]
  /\ exists r' img inner,
      draw (FM := Fixed.fixed_metrics) 0 (Some d) new_renderer = Some (Ok tt, r')
      /\ image r' = Some img /\ _inner_frame r' = Some inner
      /\ Fixed.dashed_rules img = [821 # 2; 2381 # 4]%Q
      /\ (x <- timeToPixels d inner 0 ;; Ok (Qred x)) = Ok (821 # 2)%Q
      /\ (x <- timeToPixels d inner 10 ;; Ok (Qred x)) = Ok (2381 # 4)%Q
      /\ (x <- timeToPixels d inner (-10) ;; Ok (Qred x)) = Ok (903 # 4)%Q
      /\ ~ In (903 # 4)%Q (Fixed.dashed_rules img)
      /\ filter (String.prefix "T") (Fixed.texts img) = ["T1"].
Proof.
  split; [reflexivity|].
  eexists; eexists; eexists.
  split; [vm_compute; reflexivity|].
  split; [reflexivity|]. split; [reflexivity|].
  split; [vm_compute; reflexivity|].
  split; [vm_compute; reflexivity|].
  split; [vm_compute; reflexivity|].
  split; [vm_compute; reflexivity|].
  split; [|vm_compute; reflexivity].
  vm_compute. intros [H|[H|[]]]; discriminate H.
Qed.

(** ** Drawing does not depend on what the renderer held *)

Section Draw.
Context {FM : FontMetrics} {FO : Arithmetic}.

Lemma label_widths_of_value (l : list Signal) (r : Renderer) (f : QFont) :
  _font r = Some f ->
  label_widths_of l r
  = Some (Ok (map (fun i => text_width f (strip_markup (signal_name i ++ "  ")%string)) l),
          r).
Proof.
  intros Hf; induction l as [|i l IH]; [reflexivity|].
  cbn [label_widths_of]. unfold mbind at 1.
  unfold _getTextWidth, mbind, attr, ret. rewrite Hf.
  unfold mbind in IH. rewrite IH. reflexivity.
Qed.

Lemma loadDiagram_signals (d : TimingDiagram) (r : Renderer) :
  signals d <> [] ->
  _loadDiagram d r = Some (Ok tt, loaded d (painter r)).
Proof.
  intros Hs. unfold _loadDiagram.
  unfold mbind at 1. cbn [update].
  unfold mbind at 1. cbn [update].
  unfold mbind at 1.
  rewrite (label_widths_of_value _ _ (mkFont (font_family d) (font_size d)))
    by reflexivity.
  unfold loaded.
  destruct (signals d) as [|s l]; [contradiction|].
  reflexivity.
Qed.

Lemma loadDiagram_no_signal (d : TimingDiagram) (r : Renderer) :
  signals d = [] ->
  exists r',
    _loadDiagram d r = Some (Raise AssertionError, r')
    /\ image r' = Some (mkImage (width d) (height d) []).
Proof.
  intros Hs. unfold _loadDiagram.
  unfold mbind at 1. cbn [update].
  unfold mbind at 1. cbn [update].
  unfold mbind at 1.
  rewrite (label_widths_of_value _ _ (mkFont (font_family d) (font_size d)))
    by reflexivity.
  rewrite Hs. eexists; split; reflexivity.
Qed.

Lemma same_drawing_refl a : same_drawing a a.
Proof. destruct a as [[res r]|]; simpl; auto. Qed.

Lemma draw_unfold (fuel : nat) (d : TimingDiagram) (r : Renderer) :
  draw fuel (Some d) r
  = match _loadDiagram d r with
    | Some (Ok _, r') => draw_loaded fuel r'
    | Some (Raise e, r') => Some (Raise e, r')
    | None => None
    end.
Proof. reflexivity. Qed.

(** [painter.begin] forgets the settings the painter had. *)
Lemma draw_loaded_painter (fuel : nat) (d : TimingDiagram) (p : PainterState) :
  draw_loaded fuel (loaded d p) = draw_loaded fuel (loaded d fresh_painter).
Proof. reflexivity. Qed.

Lemma draw_from_any_renderer (fuel : nat) (d : TimingDiagram) (r1 r2 : Renderer) :
  same_drawing (draw fuel (Some d) r1) (draw fuel (Some d) r2).
Proof.
  rewrite !draw_unfold.
  destruct (signals d) as [|s l] eqn:Hs.
  - destruct (loadDiagram_no_signal d r1 Hs) as (a & Ha & Ia).
    destruct (loadDiagram_no_signal d r2 Hs) as (b & Hb & Ib).
    rewrite Ha, Hb. simpl. split; congruence.
  - assert (Hne : signals d <> []) by (rewrite Hs; discriminate).
    rewrite (loadDiagram_signals d r1 Hne), (loadDiagram_signals d r2 Hne).
    rewrite (draw_loaded_painter fuel d (painter r1)),
            (draw_loaded_painter fuel d (painter r2)).
    apply same_drawing_refl.
Qed.

End Draw.

(** ** The expansion of a clock *)

Import Expansion.

Lemma dict_set_fresh {V : Type} (t : Q) (v : V) (d : dict Q V) :
  Forall (fun kv => (fst kv < t)%Q) d -> dict_set Qeq_bool t v d = d ++ [(t, v)].
Proof.
  induction 1 as [|[k x] d Hk Hd IH]; simpl; [reflexivity|].
  destruct (Qeq_bool k t) eqn:E.
  - apply Qeq_bool_iff in E. simpl in Hk. lra.
  - now rewrite IH.
Qed.

Lemma last_cons_default {A : Type} (x d : A) (l : list A) : last (x :: l) d = last l x.
Proof.
  revert x d; induction l as [|y l IH]; intros x d; [reflexivity|].
  change (last (x :: y :: l) d) with (last (y :: l) d).
  rewrite (IH y d), (IH y x). reflexivity.
Qed.

Lemma removelast_map {A C : Type} (f : A -> C) (l : list A) :
  removelast (map f l) = map f (removelast l).
Proof.
  induction l as [|x l IH]; [reflexivity|].
  destruct l as [|y l]; [reflexivity|].
  change (removelast (map f (x :: y :: l)))
    with (f x :: removelast (map f (y :: l))).
  rewrite IH. reflexivity.
Qed.

Lemma last_map_fst {A C : Type} (l : list (A * C)) (a : A) (c : C) :
  last (map fst l) a = fst (last l (a, c)).
Proof.
  induction l as [|x l IH]; [reflexivity|].
  destruct l as [|y l]; [reflexivity|].
  change (last (map fst (x :: y :: l)) a) with (last (map fst (y :: l)) a).
  rewrite IH. reflexivity.
Qed.

Lemma popitem_snoc {K V : Type} (d : dict K V) (kv : K * V) :
  popitem (d ++ [kv]) = Ok (kv, d).
Proof.
  unfold popitem. rewrite rev_app_distr. simpl. now rewrite rev_involutive.
Qed.

Lemma changes_of_snoc (dstart : Q) (l : list (Q * bool)) (e : Q * bool) :
  Qle_bool (fst e) dstart = false ->
  changes_of dstart (l ++ [e]) = changes_of dstart l ++ [(fst e, int_of_bool (snd e))].
Proof.
  intros H; unfold changes_of. rewrite filter_app; cbn [filter].
  rewrite H; cbn [negb]. now rewrite map_app.
Qed.

Lemma start_of_snoc (dstart : Q) (l : list (Q * bool)) (e : Q * bool) (v : value) :
  Qle_bool (fst e) dstart = false ->
  start_of dstart (l ++ [e]) v = start_of dstart l v.
Proof.
  intros H; unfold start_of. rewrite filter_app; cbn [filter].
  rewrite H. now rewrite app_nil_r.
Qed.

Section Loop.
Context {FO : Arithmetic}.
Variables on_length off_length dstart dend : Q.

Lemma edges_alternate : forall n time active,
  alternate on_length off_length time active (edges on_length off_length time active n).
Proof.
  induction n as [|n IH]; intros time active; simpl; [exact I|].
  split; [reflexivity|]. split; [reflexivity | apply IH].
Qed.

(** The loop runs through the edges: when the first [n] times (the time it
    starts at and the edges but the last) are before [dend], the last edge
    is not, and each edge is later than the one before, [n] turns of the
    loop give the start value and the changes of these edges. *)
Lemma clock_loop_edges : forall n fuel time active lstart changes,
  (n <= fuel)%nat ->
  let g := edges on_length off_length time active n in
  Forall (fun t => (t < dend)%Q) (removelast (time :: map fst g)) ->
  (dend <= last (map fst g) time)%Q ->
  increasing (time :: map fst g) ->
  Forall (fun kv => (fst kv <= time)%Q) changes ->
  clock_loop fuel on_length off_length dstart dend time active lstart changes
  = Some (after dstart g lstart changes).
Proof.
  induction n as [|n IH]; intros fuel time active lstart changes Hf g Hlt Hge Hinc Hk.
  - subst g. cbn [edges map last] in Hge. apply Qltb_ge in Hge.
    unfold after, start_of, changes_of. cbn [edges filter map last].
    rewrite app_nil_r.
    destruct fuel; cbn [clock_loop]; rewrite Hge; reflexivity.
  - destruct fuel as [|fuel]; [lia|].
    subst g. cbn [edges] in *.
    set (time' := fadd time (if active then on_length else off_length)) in *.
    set (g' := edges on_length off_length time' (negb active) n) in *.
    cbn [map fst] in Hlt, Hge, Hinc.
    change (removelast (time :: time' :: map fst g'))
      with (time :: removelast (time' :: map fst g')) in Hlt.
    inversion Hlt as [|x l Hx Hl]; subst x l.
    rewrite last_cons_default in Hge.
    destruct Hinc as [Hadv Hinc].
    apply Qltb_lt in Hx.
    cbn [clock_loop]. fold time'. rewrite Hx.
    assert (Hk' : Forall (fun kv : Q * value => (fst kv < time')%Q) changes).
    { eapply Forall_impl; [|exact Hk]. intros kv H; simpl in *; lra. }
    destruct (Qle_bool time' dstart) eqn:Est.
    + rewrite (IH fuel time' (negb active) (int_of_bool (negb active)) changes);
        try assumption; [|lia|].
      * unfold after, start_of, changes_of. cbn [filter fst snd].
        rewrite Est. cbn [negb map]. rewrite last_cons_default. reflexivity.
      * eapply Forall_impl; [|exact Hk']. intros kv H; simpl in *; lra.
    + rewrite (IH fuel time' (negb active) lstart
                 (dict_set Qeq_bool time' (int_of_bool (negb active)) changes));
        try assumption; [| lia |].
      * unfold after, start_of, changes_of. cbn [filter fst snd].
        rewrite Est. cbn [negb map].
        rewrite dict_set_fresh by exact Hk'.
        rewrite <- app_assoc. reflexivity.
      * rewrite dict_set_fresh by exact Hk'.
        apply Forall_app; split.
        -- eapply Forall_impl; [|exact Hk']. intros kv H; simpl in *; lra.
        -- constructor; [simpl; lra | constructor].
Qed.

End Loop.

(** The expansion of a clock whose edges reach [end]: the line of the edges
    before the one that stops the loop. *)
Lemma clockToLine_edges {FO : Arithmetic} (d : TimingDiagram) (name : string)
      (offset length duty : Q) (n fuel : nat) :
  let dstart := inject_Z (start d) in
  let dend := inject_Z (end_ d) in
  let on_length := fmul duty length in
  let off_length := fsub length on_length in
  let phase := (- fmod (- offset) length)%Q in
  let g := edges on_length off_length phase false (S n) in
  ~ (length == 0)%Q ->
  Forall (fun t => (t < dend)%Q) (phase :: map fst (removelast g)) ->
  (dend <= fst (last g (phase, false)))%Q ->
  (dstart < fst (last g (phase, false)))%Q ->
  increasing (phase :: map fst g) ->
  (S n <= fuel)%nat ->
  clockToLine fuel d (Clock name offset length duty)
  = Some (Ok (Line name (start_of dstart (removelast g) (VNum 0))
                   (changes_of dstart (removelast g)))).
Proof.
  intros dstart dend on_length off_length phase g Hlen Hlt Hge Hst Hinc Hfuel.
  assert (Hg : g <> []) by (unfold g; simpl; discriminate).
  assert (Hlast : Qle_bool (fst (last g (phase, false))) dstart = false).
  { destruct (Qle_bool _ dstart) eqn:E; [|reflexivity].
    apply Qle_bool_iff in E. lra. }
  assert (Hrun : clock_loop fuel on_length off_length dstart dend phase false
                            (VNum 0) []
                 = Some (after dstart g (VNum 0) [])).
  { apply (clock_loop_edges on_length off_length dstart dend (S n));
      [exact Hfuel | | | exact Hinc | constructor].
    - fold g. replace (removelast (phase :: map fst g))
        with (phase :: map fst (removelast g)); [exact Hlt|].
      rewrite <- removelast_map. destruct g; [contradiction | reflexivity].
    - fold g. rewrite (last_map_fst g phase false). exact Hge. }
  unfold clockToLine.
  change (Line_init name (VNum 0) []) with (Ok (Line name (VNum 0) [])).
  cbv iota beta. unfold pymod.
  destruct (Qeq_bool length 0) eqn:E; [apply Qeq_bool_iff in E; contradiction|].
  fold on_length off_length dstart dend phase. rewrite Hrun.
  unfold after. cbn [app].
  pose proof (app_removelast_last (phase, false) Hg) as Hsplit.
  assert (Hc : changes_of dstart g
               = changes_of dstart (removelast g)
                 ++ [(fst (last g (phase, false)),
                      int_of_bool (snd (last g (phase, false))))])
    by (rewrite Hsplit at 1; apply changes_of_snoc; exact Hlast).
  assert (Hv : start_of dstart g (VNum 0) = start_of dstart (removelast g) (VNum 0))
    by (rewrite Hsplit at 1; apply start_of_snoc; exact Hlast).
  rewrite Hc, Hv, popitem_snoc. reflexivity.
Qed.

(** *** Exact arithmetic: the loop always reaches [end] *)

Section Exact.
#[local] Existing Instance Numbers.exact_arithmetic.

(** The value of [a % b] for a positive [b] in exact arithmetic: between 0
    and [b]. *)
Lemma exact_mod_pos (a b : Q) :
  (0 < b)%Q ->
  let m := fmod a b in
  (m == a - b * inject_Z (Qfloor (a / b)))%Q /\ (0 <= m)%Q /\ (m < b)%Q.
Proof.
  intros Hb m. subst m. cbn [fmod Numbers.exact_arithmetic].
  split; [reflexivity|].
  assert (Hne : ~ (b == 0)%Q) by lra.
  assert (Hx : (a / b * b == a)%Q) by (field; exact Hne).
  pose proof (Qfloor_le (a / b)) as Hlo.
  pose proof (Qlt_floor (a / b)) as Hhi.
  rewrite inject_Z_plus in Hhi. change (inject_Z 1) with 1%Q in Hhi.
  apply (Qmult_le_compat_r _ _ b) in Hlo; [|lra].
  apply (Qmult_lt_compat_r _ _ b) in Hhi; [|exact Hb].
  rewrite Hx in Hlo, Hhi.
  setoid_replace ((inject_Z (Qfloor (a / b)) + 1) * b)%Q
    with (inject_Z (Qfloor (a / b)) * b + b)%Q in Hhi by ring.
  setoid_replace (b * inject_Z (Qfloor (a / b)))%Q
    with (inject_Z (Qfloor (a / b)) * b)%Q by ring.
  generalize dependent (inject_Z (Qfloor (a / b)) * b)%Q. intros; lra.
Qed.

(** Turns enough for a loop that advances by at least [step] from [time] to
    [dend]. *)
Lemma enough_fuel (dend time step : Q) :
  (0 < step)%Q ->
  exists fuel0 : nat, (dend - time <= inject_Z (Z.of_nat fuel0) * step)%Q.
Proof.
  intros Hs.
  exists (Z.to_nat (Qceiling ((dend - time) / step))).
  pose proof (Qle_ceiling ((dend - time) / step)) as Hc.
  assert (Hz : (Qceiling ((dend - time) / step)
                <= Z.of_nat (Z.to_nat (Qceiling ((dend - time) / step))))%Z) by lia.
  rewrite Zle_Qle in Hz.
  assert (Hq : ((dend - time) / step
                <= inject_Z (Z.of_nat (Z.to_nat (Qceiling ((dend - time) / step)))))%Q)
    by lra.
  apply (Qmult_le_compat_r _ _ step) in Hq; [|lra].
  assert (Hx : ((dend - time) / step * step == dend - time)%Q) by (field; lra).
  rewrite Hx in Hq. exact Hq.
Qed.

(** With positive run lengths, exact edges from a time before [dend] reach
    [dend]: some edge is the first that is not before it. *)
Lemma exact_edges_reach_end (on_length off_length dend step : Q) :
  (0 < step)%Q -> (step <= on_length)%Q -> (step <= off_length)%Q ->
  forall (fuel : nat) (time : Q) (active : bool),
    (dend - time <= inject_Z (Z.of_nat fuel) * step)%Q ->
    (time < dend)%Q ->
    exists n,
      let g := edges on_length off_length time active (S n) in
      Forall (fun t => (t < dend)%Q) (time :: map fst (removelast g))
      /\ (dend <= fst (last g (time, active)))%Q
      /\ increasing (time :: map fst g).
Proof.
  intros Hs Hson Hsoff.
  induction fuel as [|fuel IH]; intros time active Hb Hlt.
  - change (inject_Z (Z.of_nat 0)) with 0%Q in Hb. lra.
  - set (time' := (time + (if active then on_length else off_length))%Q).
    assert (Hadv : (time + step <= time')%Q)
      by (unfold time'; destruct active; lra).
    assert (Hb' : (dend - time' <= inject_Z (Z.of_nat fuel) * step)%Q).
    { rewrite Nat2Z.inj_succ in Hb. unfold Z.succ in Hb.
      rewrite inject_Z_plus in Hb. change (inject_Z 1) with 1%Q in Hb.
      setoid_replace ((inject_Z (Z.of_nat fuel) + 1) * step)%Q
        with (inject_Z (Z.of_nat fuel) * step + step)%Q in Hb by ring.
      clearbody time'.
      generalize dependent (inject_Z (Z.of_nat fuel) * step)%Q. intros; lra. }
    destruct (Qlt_le_dec time' dend) as [Hlt'|Hge'].
    + destruct (IH time' (negb active) Hb' Hlt') as (n & Hf & Hl & Hi).
      exists (S n). cbn zeta in *.
      change (edges on_length off_length time active (S (S n)))
        with ((time', negb active)
                :: edges on_length off_length time' (negb active) (S n)).
      set (g' := edges on_length off_length time' (negb active) (S n)) in *.
      assert (Hg' : g' <> []) by (unfold g'; simpl; discriminate).
      split; [|split].
      * replace (removelast ((time', negb active) :: g'))
          with ((time', negb active) :: removelast g')
          by (destruct g'; [contradiction | reflexivity]).
        cbn [map fst]. constructor; assumption.
      * rewrite last_cons_default.
        destruct g' as [|e g'']; [contradiction|].
        rewrite last_cons_default in *. exact Hl.
      * cbn [map fst]. split; [clearbody time'; lra | exact Hi].
    + exists O. cbn zeta.
      change (edges on_length off_length time active 1)
        with [(time', negb active)].
      cbn [removelast map last fst]. repeat split; try assumption.
      * constructor; [exact Hlt | constructor].
      * clearbody time'; lra.
Qed.

(** With exact arithmetic a clock with a positive length and a duty cycle
    inside (0, 1) is always expanded, in a diagram with [start < end] whose
    [end] is after the phase time: some edge is the first that is not before
    [end], and with fuel for it the expansion returns the line of the edges
    before that one.  The phase time is the greatest [offset + k * length]
    that is not after 0. *)
Lemma clock_expansion_exact (d : TimingDiagram) (name : string)
      (offset length duty : Q) :
  let dstart := inject_Z (start d) in
  let dend := inject_Z (end_ d) in
  let phase := (- fmod (- offset) length)%Q in
  (0 < length)%Q -> (0 < duty)%Q -> (duty < 1)%Q ->
  (start d < end_ d)%Z -> (phase < dend)%Q ->
  exists (k : Z) (n : nat),
    let g := edges (duty * length) (length - duty * length) phase false (S n) in
    (phase == offset + inject_Z k * length)%Q
    /\ (- length < phase)%Q /\ (phase <= 0)%Q
    /\ Forall (fun e => (fst e < dend)%Q) (removelast g)
    /\ (dend <= fst (last g (phase, false)))%Q
    /\ forall fuel, (S n <= fuel)%nat ->
         clockToLine fuel d (Clock name offset length duty)
         = Some (Ok (Line name (start_of dstart (removelast g) (VNum 0))
                          (changes_of dstart (removelast g)))).
Proof.
  intros dstart dend phase Hlen Hd0 Hd1 Hse Hpe.
  destruct (exact_mod_pos (- offset) length Hlen) as (Hm & Hm0 & Hm1).
  set (on_length := (duty * length)%Q).
  set (off_length := (length - on_length)%Q).
  assert (Hon : (0 < on_length)%Q).
  { unfold on_length. apply Qmult_lt_0_compat; assumption. }
  assert (Hoff : (0 < off_length)%Q).
  { unfold off_length, on_length.
    setoid_replace (length - duty * length)%Q with ((1 - duty) * length)%Q by ring.
    apply Qmult_lt_0_compat; lra. }
  assert (Hstep : exists step, (0 < step)%Q /\ (step <= on_length)%Q
                               /\ (step <= off_length)%Q).
  { destruct (Qlt_le_dec on_length off_length);
      [exists on_length | exists off_length]; repeat split; lra. }
  destruct Hstep as (step & Hs & Hson & Hsoff).
  destruct (enough_fuel dend phase step Hs) as (fuel0 & Hfuel).
  destruct (exact_edges_reach_end on_length off_length dend step Hs Hson Hsoff
              fuel0 phase false Hfuel Hpe) as (n & Hf & Hl & Hi).
  cbn zeta in Hf, Hl, Hi.
  exists (Qfloor (- offset / length)), n. cbn zeta.
  fold on_length off_length.
  split; [unfold phase; rewrite Hm; ring|].
  split; [unfold phase; lra|]. split; [unfold phase; lra|].
  split.
  { inversion Hf as [|x l Hx Hrest]; subst. apply Forall_map in Hrest. exact Hrest. }
  split; [exact Hl|].
  intros fuel Hfu.
  assert (Hne : ~ (length == 0)%Q) by lra.
  assert (Hst : (dstart < fst (last (edges on_length off_length phase false (S n))
                                    (phase, false)))%Q).
  { assert (dstart < dend)%Q
      by (unfold dstart, dend; rewrite <- Zlt_Qlt; exact Hse). lra. }
  exact (clockToLine_edges d name offset length duty n fuel Hne Hf Hl Hst Hi Hfu).
Qed.

End Exact.

(** When [end] is not after the phase time the loop does not run, nothing is
    put in the changes, and [popitem] raises [KeyError]. *)
Lemma clockToLine_KeyError {FO : Arithmetic} (fuel : nat) (d : TimingDiagram)
      (name : string) (offset length duty : Q) :
  ~ (length == 0)%Q ->
  (inject_Z (end_ d) <= - fmod (- offset) length)%Q ->
  clockToLine fuel d (Clock name offset length duty) = Some (Raise KeyError).
Proof.
  intros Hlen Hge. unfold clockToLine.
  change (Line_init name (VNum 0) []) with (Ok (Line name (VNum 0) [])).
  cbv iota beta. unfold pymod.
  destruct (Qeq_bool length 0) eqn:E; [apply Qeq_bool_iff in E; contradiction|].
  apply Qltb_ge in Hge.
  destruct fuel; cbn [clock_loop]; rewrite Hge; reflexivity.
Qed.

Lemma clockToLine_KeyError_witness :
  clockToLine (FO := Numbers.double_arithmetic) 10
    (mkDiagram 800 600 20 12 "Times New Roman" 16777215 0 (-20) 0 None 10 [])
    (Clock "c" 0 4 (1 # 2))
  = Some (Raise KeyError).
Proof.
  apply (clockToLine_KeyError (FO := Numbers.double_arithmetic)).
  - intros H; discriminate H.
  - vm_compute. intros H; discriminate H.
Defined.

(** C4, amended.  The arithmetic is the code's own: exact on [int] values,
    IEEE double on floats.  The expansion of a clock whose length is not 0
    starts at the phase time [-(-offset % length)] with the clock low; from
    there each edge comes one run after the one before and flips the clock,
    a low run of [length - duty * length] and a high run of [duty * length]
    in turn.  Let the edge number [n + 1] be the first that is not before
    [end] (it reaches [end] or goes beyond it), the phase time and the [n]
    edges before it being before [end], each edge later than the one before,
    and let that edge be after [start] (as it is when [start < end]).  Then
    the loop stops on that edge, and
    with [n + 1] turns or more of fuel the expansion returns the line whose
    changes are the [n] edges before it that lie after [start], as 0/1
    changes, and whose start value is the value of the last edge not after
    [start] (0 without one); the edge that stops the loop is dropped. *)
Theorem clock_expansion {FO : Arithmetic} (d : TimingDiagram) (name : string)
    (offset length duty : Q) (n : nat) :
  let dstart := inject_Z (start d) in
  let dend := inject_Z (end_ d) in
  let on_length := fmul duty length in
  let off_length := fsub length on_length in
  let phase := (- fmod (- offset) length)%Q in
  let g := edges on_length off_length phase false (S n) in
  ~ (length == 0)%Q ->
  Forall (fun t => (t < dend)%Q) (phase :: map fst (removelast g)) ->
  (dend <= fst (last g (phase, false)))%Q ->
  (dstart < fst (last g (phase, false)))%Q ->
  increasing (phase :: map fst g) ->
  alternate on_length off_length phase false g
  /\ forall fuel, (S n <= fuel)%nat ->
       clockToLine fuel d (Clock name offset length duty)
       = Some (Ok (Line name (start_of dstart (removelast g) (VNum 0))
                        (changes_of dstart (removelast g)))).
Proof.
  intros dstart dend on_length off_length phase g Hlen Hlt Hge Hst Hinc.
  split; [apply edges_alternate|].
  intros fuel Hfuel.
  apply (clockToLine_edges d name offset length duty n fuel); assumption.
Qed.

(** The clock of the example in double arithmetic: offset 0, length 4, duty
    0.5, in a diagram from 0 to 10.  The edges are 2, 4, 6, 8 and 10; the
    fifth, at 10, is the first that is not before [end], and the line has
    start value 0 and the changes 2 -> 1, 4 -> 0, 6 -> 1, 8 -> 0. *)
Lemma clock_expansion_witness :
  let d := mkDiagram 800 600 20 12 "Times New Roman" 16777215 0 0 10 None 10 [] in
  edges (FO := Numbers.double_arithmetic) 2 2 0 false 5
  = [(2%Q, true); (4%Q, false); (6%Q, true); (8%Q, false); (10%Q, true)]
  /\ forall fuel, (5 <= fuel)%nat ->
       clockToLine (FO := Numbers.double_arithmetic) fuel d (Clock "c" 0 4 (1 # 2))
       = Some (Ok (Line "c" (VNum 0)
                        [(2%Q, VNum 1); (4%Q, VNum 0); (6%Q, VNum 1); (8%Q, VNum 0)])).
Proof.
  intros d. split; [reflexivity|].
  refine (proj2 (clock_expansion (FO := Numbers.double_arithmetic)
                   d "c" 0 4 (1 # 2) 4 _ _ _ _ _)).
  - intros H; discriminate H.
  - repeat constructor.
  - vm_compute. intros H; discriminate H.
  - reflexivity.
  - repeat split.
Defined.

(** C4, as stated: in the example, in double arithmetic, the loop stops on
    the edge at time 10, which does not exceed [end = 10]; that edge is the
    change that is dropped, and the line has no change at time 10. *)
Lemma clock_stops_on_edge_at_end :
  let d := mkDiagram 800 600 20 12 "Times New Roman" 16777215 0 0 10 None 10 [] in
  exists changes t v rest,
    clock_loop (FO := Numbers.double_arithmetic) 5 2 2 (inject_Z (start d))
               (inject_Z (end_ d)) 0 false (VNum 0) [] = Some (VNum 0, changes)
    /\ popitem changes = Ok ((t, v), rest)
    /\ (t == 10)%Q /\ v = VNum 1
    /\ ~ (inject_Z (end_ d) < t)%Q
    /\ clockToLine (FO := Numbers.double_arithmetic) 5 d (Clock "c" 0 4 (1 # 2))
       = Some (Ok (Line "c" (VNum 0) rest))
    /\ dict_in Qeq_bool 10%Q rest = false.
Proof.
  intros d. eexists; eexists; eexists; eexists.
  split; [vm_compute; reflexivity|].
  split; [vm_compute; reflexivity|].
  split; [reflexivity|]. split; [reflexivity|].
  split; [intros H; vm_compute in H; discriminate H|].
  split; vm_compute; reflexivity.
Qed.

(** Rounding is seen by the model: a clock of length 0.1 and duty 0.1 (the
    doubles of these literals) from 0 to 1 has 20 changes in double
    arithmetic, the last one at 0.9999999999999999, where the sum of the
    runs falls just short of 1; the exact sums of 1/10 give 19. *)
Example clock_tenths_in_doubles :
  let d := mkDiagram 800 600 20 12 "Times New Roman" 16777215 0 0 1 None 10 [] in
  let tenth := Numbers.double (1 # 10) in
  match clockToLine (FO := Numbers.double_arithmetic) 30 d (Clock "c" 0 tenth tenth) with
  | Some (Ok (Line _ _ c)) => Some (List.length c, last c (0%Q, VNone))
  | _ => None
  end = Some (20%nat, ((9007199254740991 # 9007199254740992)%Q, VNum 0))
  /\ match clockToLine (FO := Numbers.exact_arithmetic) 30 d
             (Clock "c" 0 (1 # 10) (1 # 10)) with
     | Some (Ok (Line _ _ c)) => Some (List.length c)
     | _ => None
     end = Some 19%nat.
Proof. split; vm_compute; reflexivity. Qed.
